(** * xlsx_loader: the sheet-to-table loader of [src/xlsx_loader/cli.py]

    A shallow embedding of the three operations of the command line tool:
    [sanitize_table_name], [load_xlsx] and [load_all_xlsx], and the
    properties of their behaviour.

    Python strings are sequences of Unicode code points.  A character is a
    code point ([N]); a string is a list of them.  The ASCII range of the
    character database is written out; what Python's built-in methods do on
    the other code points comes from a table, [unicode_tables], that the
    development takes as a parameter, so that a statement proved for every
    table holds for the table CPython ships. *)

From Stdlib Require Import NArith ZArith List String Ascii Bool Lia DecimalString.
From stdpp Require Import gmap.
From Equations Require Import Equations.
Import ListNotations.

Local Open Scope N_scope.

(** ** Strings *)

Abbreviation char := N.
Abbreviation str := (list N).

(** A literal of the source, written with Rocq's byte strings (ASCII only). *)
Definition lit (s : string) : str := List.map N_of_ascii (list_ascii_of_string s).

Definition SPACE : char := 32.
Definition HYPHEN : char := 45.
Definition PERIOD : char := 46.
Definition UNDERSCORE : char := 95.
Definition SLASH : char := 47.

(** ** The character database *)

Definition is_ascii (c : char) : bool := c <? 128.
Definition ascii_isdigit (c : char) : bool := (48 <=? c) && (c <=? 57).
Definition ascii_isupper (c : char) : bool := (65 <=? c) && (c <=? 90).
Definition ascii_islower (c : char) : bool := (97 <=? c) && (c <=? 122).
Definition ascii_isalpha (c : char) : bool := ascii_isupper c || ascii_islower c.
Definition ascii_lower (c : char) : char := if ascii_isupper c then c + 32 else c.

(** The properties of the code points from 128 on that the built-in string
    methods consult ([uni_cased] and [uni_case_ignorable] are read for every
    code point: they only steer the choice between the two lowercase
    sigmas). *)
Record unicode_tables : Type := {
  uni_isalpha : char -> bool;
  uni_isdecimal : char -> bool;
  uni_isdigit : char -> bool;
  uni_isnumeric : char -> bool;
  uni_isupper : char -> bool;
  uni_lower_full : char -> list char;
  uni_cased : char -> bool;
  uni_case_ignorable : char -> bool
}.

Definition CAPITAL_SIGMA : char := 931.      (* U+03A3 *)
Definition FINAL_SIGMA : char := 962.        (* U+03C2 *)
Definition SMALL_SIGMA : char := 963.        (* U+03C3 *)

Section Strings.
Context (U : unicode_tables).

Definition py_isalpha (c : char) : bool :=
  if is_ascii c then ascii_isalpha c else uni_isalpha U c.
Definition py_isdecimal (c : char) : bool :=
  if is_ascii c then ascii_isdigit c else uni_isdecimal U c.
Definition py_isdigit (c : char) : bool :=
  if is_ascii c then ascii_isdigit c else uni_isdigit U c.
Definition py_isnumeric (c : char) : bool :=
  if is_ascii c then ascii_isdigit c else uni_isnumeric U c.
Definition py_isupper (c : char) : bool :=
  if is_ascii c then ascii_isupper c else uni_isupper U c.

(** [c.isalnum()]: alphabetic, decimal, digit or numeric. *)
Definition py_isalnum (c : char) : bool :=
  py_isalpha c || py_isdecimal c || py_isdigit c || py_isnumeric c.

(** The full lowercase mapping of one code point (it may be several code
    points long). *)
Definition to_lower_full (c : char) : list char :=
  if is_ascii c then [ascii_lower c] else uni_lower_full U c.

(** The first code point of [s] that is not case-ignorable. *)
Fixpoint skip_ignorable (s : str) : option char :=
  match s with
  | [] => None
  | c :: s' => if uni_case_ignorable U c then skip_ignorable s' else Some c
  end.

(** Whether a capital sigma is in final position: a cased letter before it
    and none after it, case-ignorable code points skipped on both sides.
    [before] is the text before the sigma, nearest code point first. *)
Definition final_sigma (before after : str) : bool :=
  match skip_ignorable before with
  | Some c =>
      uni_cased U c &&
      match skip_ignorable after with
      | None => true
      | Some d => negb (uni_cased U d)
      end
  | None => false
  end.

Fixpoint do_lower (before s : str) : str :=
  match s with
  | [] => []
  | c :: s' =>
      (if c =? CAPITAL_SIGMA
       then [if final_sigma before s' then FINAL_SIGMA else SMALL_SIGMA]
       else to_lower_full c)
      ++ do_lower (c :: before) s'
  end.

(** [s.lower()] *)
Definition lower (s : str) : str := do_lower [] s.

(** [s.replace(old, new)] for one-character [old] and [new]. *)
Definition replace (old new : char) (s : str) : str :=
  List.map (fun c => if c =? old then new else c) s.

(** ** Name Sanitizer *)

Definition sanitize_table_name (name : str) : str :=
  let sanitized :=
    replace PERIOD UNDERSCORE (replace HYPHEN UNDERSCORE (replace SPACE UNDERSCORE name)) in
  let sanitized :=
    List.filter (fun c => py_isalnum c || (c =? UNDERSCORE)) sanitized in
  let sanitized :=
    match sanitized with
    | c :: _ => if py_isdigit c then lit "sheet_" ++ sanitized else sanitized
    | [] => sanitized
    end in
  lower sanitized.

(** ** The timestamp pattern of the Directory Batcher *)

(** [digits n s]: what follows [n] decimal digits at the start of [s]
    (the pattern's [\d] matches every decimal digit of the database). *)
Fixpoint digits (n : nat) (s : str) : option str :=
  match n with
  | O => Some s
  | S n' =>
      match s with
      | c :: s' => if py_isdecimal c then digits n' s' else None
      | [] => None
      end
  end.

(** Whether the pattern [_\d{8}_\d{6}] matches at the start of [s]. *)
Definition match_timestamp (s : str) : bool :=
  match s with
  | c :: s1 =>
      (c =? UNDERSCORE) &&
      match digits 8 s1 with
      | Some (c2 :: s2) => (c2 =? UNDERSCORE) && bool_decide (is_Some (digits 6 s2))
      | _ => false
      end
  | [] => false
  end.

(** [re.sub(r'_\d{8}_\d{6}', '', s)]: scan from the left; a match is
    dropped and the scan resumes after its 16 code points, any other code
    point is kept. *)
Equations? re_sub_timestamp (s : str) : str by wf (length s) lt :=
  re_sub_timestamp [] := [];
  re_sub_timestamp (c :: s') with match_timestamp (c :: s') := {
    | true := re_sub_timestamp (drop 15 s');
    | false := c :: re_sub_timestamp s' }.
Proof. all: rewrite ?length_drop; simpl; lia. Qed.

(** [s.rfind(c)], [None] where Python returns -1. *)
Fixpoint rfind (c : char) (s : str) : option nat :=
  match s with
  | [] => None
  | d :: s' =>
      match rfind c s' with
      | Some i => Some (S i)
      | None => if d =? c then Some O else None
      end
  end.

(** [PurePath.stem], from the final path component [name]. *)
Definition stem (name : str) : str :=
  match rfind PERIOD name with
  | Some i => if ((0 <? i) && (i <? length name - 1))%nat then take i name else name
  | None => name
  end.

(** The table prefix the Directory Batcher derives from a file name. *)
Definition derive_prefix (name : str) : str :=
  let filename := stem name in
  let filename := re_sub_timestamp filename in
  replace HYPHEN UNDERSCORE (replace SPACE UNDERSCORE filename).

End Strings.

(** An excerpt of the character database: the code points the examples use.
    U+0130 (capital I with dot above) is an uppercase letter whose lowercase
    mapping is the two code points U+0069 U+0307; U+0307 (combining dot
    above) is a non-spacing mark; U+2102 (double-struck capital C) is an
    uppercase letter without a lowercase mapping; U+00B2 (superscript two) is
    a digit that is not decimal.  Every other code point from 128 on is
    treated as unassigned. *)
Definition ucd_excerpt : unicode_tables := {|
  uni_isalpha c := (c =? 304) || (c =? 8450);
  uni_isdecimal c := false;
  uni_isdigit c := (c =? 178);
  uni_isnumeric c := (c =? 178);
  uni_isupper c := (c =? 304) || (c =? 8450);
  uni_lower_full c := if c =? 304 then [105; 775] else [c];
  uni_cased c := ascii_isalpha c || (c =? 304) || (c =? 8450);
  uni_case_ignorable c :=
    (c =? 39) || (c =? 46) || (c =? 58) || (c =? 94) || (c =? 96) || (c =? 775)
|}.

(** How the catalog of DuckDB folds a plain name: the ASCII letters in
    lowercase. *)
Definition ascii_fold (name : str) : str := List.map ascii_lower name.

(** ** The world around the loader *)

(** What the loader reads of a [DataFrame]: the lengths of its two axes. *)
Record dataframe : Type := { df_rows : nat; df_columns : nat }.

(** [df.empty]: one of the axes has length 0. *)
Definition df_empty (df : dataframe) : bool :=
  (df_rows df =? 0)%nat || (df_columns df =? 0)%nat.

(** The exceptions of a run, all of them subclasses of [Exception]:
    [typer.Exit] is click's [Exit], a [RuntimeError]. *)
Inductive exn : Type :=
| PyError (msg : str)
| TyperExit (code : Z).

(** [str(e)]; [Exit] keeps its code as its only argument. *)
Definition str_exn (e : exn) : str :=
  match e with
  | PyError msg => msg
  | TyperExit code => lit (NilZero.string_of_int (Z.to_int code))
  end.

(** A [Path] returned by [glob]: [str(p)] and [p.name]. *)
Record path : Type := { path_str : str; path_name : str }.

(** An entry of [loaded_sheets]: sheet name, table name, rows, columns. *)
Definition loaded_entry : Type := str * str * nat * nat.

(** The texts passed to [typer.echo], by the call that prints them; the
    lines of the summary make one message. *)
Inductive message : Type :=
| MsgNotFound (xlsx_file : str)
| MsgReading (xlsx_file : str)
| MsgFound (sheet_names : list str)
| MsgProcessing (sheet_name : str)
| MsgSkippingEmpty (sheet_name : str)
| MsgCreated (table_name : str) (row_count col_count : nat)
| MsgSkippedSheet (sheet_name msg : str)
| MsgSheetError (sheet_name msg : str)
| MsgSummary (xlsx_file duckdb_file : str) (loaded_sheets : list loaded_entry)
             (skipped_sheets : list str)
| MsgError (msg : str)
| MsgDirNotFound (input_dir : str)
| MsgNoFiles (file_pattern input_dir : str)
| MsgFoundFiles (count : nat)
| MsgProcessingFile (name : str)
| MsgSkippedFile (name msg : str).

(** What a run does to the outside, in order. *)
Inductive event : Type :=
| EvMkdir (duckdb_file : str)
| EvExcelFile (xlsx_file : str)
| EvConnect (duckdb_file : str)
| EvReadExcel (xlsx_file sheet_name : str)
| EvExecute (table_name : str) (df : dataframe)
| EvClose
| EvEcho (err : bool) (m : message).

(** The answers of the file system, of pandas and of DuckDB.  An error is
    given by the message of the exception raised.  The statement that writes
    a table holds the table name as it is, without quotes: [table_key] is the
    entry of the catalog that DuckDB resolves such a name to (it compares
    names without regard to case), and [glob] is [list(Path.glob(...))],
    which raises on the patterns that [Path.glob] refuses. *)
Record world : Type := {
  path_exists : str -> bool;
  mkdir_error : str -> option str;
  sheet_names_of : str -> str + list str;
  read_excel : str -> str -> str + dataframe;
  connect_error : str -> option str;
  table_key : str -> str;
  execute_error : gmap str dataframe -> str -> dataframe -> option str;
  glob : str -> str -> str + list path
}.

(** The destination database (its tables, by the entry of the catalog), the
    connections that are open, and the events so far. *)
Record state : Type := {
  db : gmap str dataframe;
  open_conns : nat;
  trace : list event
}.

(** ** Statements: state passing with exceptions *)

Definition M (A : Type) : Type := state -> state * (exn + A).

#[global] Instance M_ret : MRet M := fun A a st => (st, inr a).
#[global] Instance M_bind : MBind M := fun A B k m st =>
  match m st with
  | (st', inr a) => k a st'
  | (st', inl e) => (st', inl e)
  end.

Definition raise {A} (e : exn) : M A := fun st => (st, inl e).

(** [try: m except Exception as e: h e] *)
Definition try_except {A} (m : M A) (h : exn -> M A) : M A := fun st =>
  match m st with
  | (st', inl e) => h e st'
  | (st', inr a) => (st', inr a)
  end.

Definition add_events (evs : list event) (st : state) : state :=
  {| db := db st; open_conns := open_conns st; trace := trace st ++ evs |}.

Definition emit (ev : event) : M unit := fun st => (add_events [ev] st, inr tt).

Definition echo (err : bool) (m : message) : M unit := emit (EvEcho err m).

Definition when (b : bool) (m : M unit) : M unit := if b then m else mret tt.

Definition of_result {A} (r : str + A) : M A :=
  match r with
  | inl msg => raise (PyError msg)
  | inr a => mret a
  end.

Definition of_error (r : option str) : M unit :=
  match r with
  | Some msg => raise (PyError msg)
  | None => mret tt
  end.

Fixpoint for_each {A B} (l : list A) (body : A -> B -> M B) (acc : B) : M B :=
  match l with
  | [] => mret acc
  | x :: l' => acc' ← body x acc; for_each l' body acc'
  end.

Section Loader.
Context (U : unicode_tables) (w : world).

Definition mkdir_parents (duckdb_file : str) : M unit :=
  emit (EvMkdir duckdb_file);; of_error (mkdir_error w duckdb_file).

Definition ExcelFile_sheet_names (xlsx_file : str) : M (list str) :=
  emit (EvExcelFile xlsx_file);; of_result (sheet_names_of w xlsx_file).

Definition pd_read_excel (xlsx_file sheet_name : str) : M dataframe :=
  emit (EvReadExcel xlsx_file sheet_name);; of_result (read_excel w xlsx_file sheet_name).

Definition duckdb_connect (duckdb_file : str) : M unit := fun st =>
  match connect_error w duckdb_file with
  | Some msg => (st, inl (PyError msg))
  | None =>
      ({| db := db st; open_conns := S (open_conns st);
          trace := trace st ++ [EvConnect duckdb_file] |}, inr tt)
  end.

(** [conn.execute("CREATE OR REPLACE TABLE <table_name> AS SELECT * FROM df")] *)
Definition conn_execute (table_name : str) (df : dataframe) : M unit := fun st =>
  match execute_error w (db st) table_name df with
  | Some msg => (st, inl (PyError msg))
  | None =>
      ({| db := <[table_key w table_name := df]> (db st); open_conns := open_conns st;
          trace := trace st ++ [EvExecute table_name df] |}, inr tt)
  end.

Definition conn_close : M unit := fun st =>
  ({| db := db st; open_conns := pred (open_conns st);
      trace := trace st ++ [EvClose] |}, inr tt).

(** ** Sheet Loader *)

(** The body of the loop over the sheets; [acc] is
    [(loaded_sheets, skipped_sheets)]. *)
Definition process_sheet (xlsx_file table_prefix : str) (skip_errors verbose : bool)
    (sheet_name : str) (acc : list loaded_entry * list str)
    : M (list loaded_entry * list str) :=
  let '(loaded_sheets, skipped_sheets) := acc in
  try_except
    (when verbose (echo false (MsgProcessing sheet_name));;
     df ← pd_read_excel xlsx_file sheet_name;
     if df_empty df then
       when verbose (echo false (MsgSkippingEmpty sheet_name));;
       mret (loaded_sheets, skipped_sheets ++ [sheet_name ++ lit " (empty)"])
     else
       let table_name := sanitize_table_name U sheet_name in
       let table_name :=
         match table_prefix with
         | [] => table_name
         | _ :: _ => table_prefix ++ lit "_" ++ table_name
         end in
       conn_execute table_name df;;
       let row_count := df_rows df in
       let col_count := df_columns df in
       when verbose (echo false (MsgCreated table_name row_count col_count));;
       mret (loaded_sheets ++ [(sheet_name, table_name, row_count, col_count)],
             skipped_sheets))
    (fun e =>
       let error_msg := sheet_name ++ lit " (error: " ++ str_exn e ++ lit ")" in
       if skip_errors then
         when verbose (echo false (MsgSkippedSheet sheet_name (str_exn e)));;
         mret (loaded_sheets, skipped_sheets ++ [error_msg])
       else
         echo true (MsgSheetError sheet_name (str_exn e));;
         raise (TyperExit 1)).

Definition load_xlsx (xlsx_file duckdb_file table_prefix : str)
    (skip_errors verbose : bool) : M unit :=
  if negb (path_exists w xlsx_file) then
    echo true (MsgNotFound xlsx_file);;
    raise (TyperExit 1)
  else
    mkdir_parents duckdb_file;;
    try_except
      (when verbose (echo false (MsgReading xlsx_file));;
       sheet_names ← ExcelFile_sheet_names xlsx_file;
       when verbose (echo false (MsgFound sheet_names));;
       duckdb_connect duckdb_file;;
       '(loaded_sheets, skipped_sheets) ←
         for_each sheet_names
           (process_sheet xlsx_file table_prefix skip_errors verbose) ([], []);
       conn_close;;
       echo false (MsgSummary xlsx_file duckdb_file loaded_sheets skipped_sheets))
      (fun e =>
         echo true (MsgError (str_exn e));;
         raise (TyperExit 1)).

(** ** Directory Batcher *)

(** The body of the loop over the files. *)
Definition process_file (duckdb_file : str) (skip_errors verbose : bool)
    (xlsx_file : path) (_ : unit) : M unit :=
  let table_prefix := derive_prefix U (path_name xlsx_file) in
  echo false (MsgProcessingFile (path_name xlsx_file));;
  try_except
    (load_xlsx (path_str xlsx_file) duckdb_file table_prefix skip_errors verbose)
    (fun e =>
       if skip_errors then
         echo false (MsgSkippedFile (path_name xlsx_file) (str_exn e))
       else raise e).

Definition load_all_xlsx (input_dir duckdb_file file_pattern : str)
    (skip_errors verbose : bool) : M unit :=
  if negb (path_exists w input_dir) then
    echo true (MsgDirNotFound input_dir);;
    raise (TyperExit 1)
  else
    xlsx_files ← of_result (glob w input_dir file_pattern);
    match xlsx_files with
    | [] => echo false (MsgNoFiles file_pattern input_dir)
    | _ :: _ =>
        echo false (MsgFoundFiles (length xlsx_files));;
        for_each xlsx_files (process_file duckdb_file skip_errors verbose) tt
    end.

End Loader.

(** The exit status of the process for the way the command ended: an
    exception that is not [typer.Exit] ends the process with status 1. *)
Definition exit_code {A} (r : exn + A) : Z :=
  match r with
  | inr _ => 0
  | inl (TyperExit code) => code
  | inl (PyError _) => 1
  end.

Definition initial_state : state := {| db := ∅; open_conns := 0; trace := [] |}.

(** ** The character classes the properties speak of *)

(** A lowercase ASCII letter, an ASCII digit or an underscore. *)
Definition ascii_ident_char (c : char) : bool :=
  ascii_islower c || ascii_isdigit c || (c =? UNDERSCORE).

(** An underscore, or an alphanumeric character that is not an uppercase
    letter. *)
Definition lower_alnum_or_underscore (U : unicode_tables) (c : char) : bool :=
  (c =? UNDERSCORE) || (py_isalnum U c && negb (py_isupper U c)).

(** The lowercase mapping of [c] stays within [lower_alnum_or_underscore]
    (for the capital sigma: both of its lowercase forms do). *)
Definition lowers_within (U : unicode_tables) (c : char) : bool :=
  if c =? CAPITAL_SIGMA
  then lower_alnum_or_underscore U FINAL_SIGMA && lower_alnum_or_underscore U SMALL_SIGMA
  else forallb (lower_alnum_or_underscore U) (to_lower_full U c).

(** ** The Directory Batcher's prefix, in the words of the specification *)

(** An underscore, 8 decimal digits, an underscore, 6 decimal digits. *)
Definition timestamp_shape (U : unicode_tables) (ts : str) : Prop :=
  exists d8 d6 : str,
    ts = UNDERSCORE :: d8 ++ UNDERSCORE :: d6 /\
    length d8 = 8%nat /\ length d6 = 6%nat /\
    Forall (fun c => py_isdecimal U c = true) (d8 ++ d6).

Definition starts_with_timestamp (U : unicode_tables) (s : str) : Prop :=
  exists ts rest : str, timestamp_shape U ts /\ s = ts ++ rest.

(** [timestamps_deleted U s out]: [out] is [s] with its timestamps deleted,
    reading from the left: where a timestamp starts it is left out whole and
    the reading goes on after it, any other character is kept. *)
Inductive timestamps_deleted (U : unicode_tables) : str -> str -> Prop :=
| deleted_nil : timestamps_deleted U [] []
| deleted_timestamp ts rest out :
    timestamp_shape U ts ->
    timestamps_deleted U rest out ->
    timestamps_deleted U (ts ++ rest) out
| deleted_keep c s out :
    ~ starts_with_timestamp U (c :: s) ->
    timestamps_deleted U s out ->
    timestamps_deleted U (c :: s) (c :: out).

(** In the words of the claim, every embedded substring of the form of a
    timestamp deleted: the code point at index [i] of [s] lies in such a
    substring, and [s] without the code points that do. *)
Definition in_timestamp (U : unicode_tables) (s : str) (i : nat) : bool :=
  existsb (fun j => (i <? j + 16)%nat && match_timestamp U (drop j s)) (seq 0 (S i)).

Definition every_timestamp_deleted (U : unicode_tables) (s : str) : str :=
  List.map snd
    (List.filter (fun ic : nat * char => negb (in_timestamp U s (fst ic)))
       (combine (seq 0 (length s)) s)).

(** A directory with the one workbook [sales_20250919_085132.xlsx], whose one
    sheet [Totals] has 3 rows and 2 columns; nothing fails. *)
Definition sales_world : world := {|
  path_exists _ := true;
  mkdir_error _ := None;
  sheet_names_of _ := inr [lit "Totals"];
  read_excel _ _ := inr {| df_rows := 3; df_columns := 2 |};
  connect_error _ := None;
  table_key := ascii_fold;
  execute_error _ _ _ := None;
  glob _ _ := inr [ {| path_str := lit "in/sales_20250919_085132.xlsx";
                       path_name := lit "sales_20250919_085132.xlsx" |} ]
|}.

(** ** The Sheet Loader, in the words of the specification *)

(** The table of a sheet: [[<prefix>_]<sanitized_sheet_name>]. *)
Definition expected_table_name (U : unicode_tables) (table_prefix sheet_name : str) : str :=
  match table_prefix with
  | [] => sanitize_table_name U sheet_name
  | _ :: _ => table_prefix ++ UNDERSCORE :: sanitize_table_name U sheet_name
  end.

(** What reading a sheet and writing its table come to, the database being
    [d]: the sheet is empty, or the read or the write raises an error, or the
    table is written. *)
Inductive sheet_outcome : Type :=
| SheetEmpty
| SheetFails (msg : str)
| SheetLoads (table_name : str) (df : dataframe).

Definition sheet_outcome_in (U : unicode_tables) (w : world)
    (xlsx_file table_prefix sheet_name : str) (d : gmap str dataframe) : sheet_outcome :=
  match read_excel w xlsx_file sheet_name with
  | inl msg => SheetFails msg
  | inr df =>
      if df_empty df then SheetEmpty
      else
        let table_name := expected_table_name U table_prefix sheet_name in
        match execute_error w d table_name df with
        | Some msg => SheetFails msg
        | None => SheetLoads table_name df
        end
  end.

(** The events of a run up to the loop over the sheets, and the state in
    which the loop starts: the connection is open. *)
Definition opening_events (xlsx_file duckdb_file : str) (verbose : bool)
    (sheet_names : list str) : list event :=
  [EvMkdir duckdb_file]
  ++ (if verbose then [EvEcho false (MsgReading xlsx_file)] else [])
  ++ [EvExcelFile xlsx_file]
  ++ (if verbose then [EvEcho false (MsgFound sheet_names)] else [])
  ++ [EvConnect duckdb_file].

Definition loop_start (xlsx_file duckdb_file : str) (verbose : bool)
    (sheet_names : list str) (st : state) : state :=
  {| db := db st; open_conns := S (open_conns st);
     trace := trace st ++ opening_events xlsx_file duckdb_file verbose sheet_names |}.

(** The events of the loop body for one sheet up to its read. *)
Definition reading_events (xlsx_file sheet_name : str) (verbose : bool) : list event :=
  (if verbose then [EvEcho false (MsgProcessing sheet_name)] else [])
  ++ [EvReadExcel xlsx_file sheet_name].

(** An event of the loop over the sheets [names]: a sheet among [names] is
    read, the table of a sheet among [names] is written, or a line about a
    sheet is printed. *)
Definition loop_event (U : unicode_tables) (table_prefix : str) (names : list str)
    (ev : event) : Prop :=
  match ev with
  | EvReadExcel _ sheet_name => In sheet_name names
  | EvExecute table_name _ =>
      exists sheet_name,
        In sheet_name names /\
        table_name = expected_table_name U table_prefix sheet_name
  | EvEcho _ (MsgProcessing _) | EvEcho _ (MsgSkippingEmpty _)
  | EvEcho _ (MsgCreated _ _ _) | EvEcho _ (MsgSkippedSheet _ _)
  | EvEcho _ (MsgSheetError _ _) => True
  | _ => False
  end.

(** An entry of [loaded_sheets] for one of the sheets [names], with the table
    name of the specification, its table being in the database [d]. *)
Definition entry_named (U : unicode_tables) (w : world) (table_prefix : str)
    (names : list str) (d : gmap str dataframe) (e : loaded_entry) : Prop :=
  let '(sheet_name, table_name, _, _) := e in
  In sheet_name names /\
  table_name = expected_table_name U table_prefix sheet_name /\
  is_Some (d !! table_key w table_name).

(** The sheet read last among the events [evs], [last] when none is. *)
Fixpoint last_read (last : option str) (evs : list event) : option str :=
  match evs with
  | [] => last
  | EvReadExcel _ sheet_name :: evs' => last_read (Some sheet_name) evs'
  | _ :: evs' => last_read last evs'
  end.

(** The tables written among the events [evs], in order, each with the sheet
    read last before the write ([last] before the first read). *)
Fixpoint writes_by_sheet (last : option str) (evs : list event)
    : list (option str * str * dataframe) :=
  match evs with
  | [] => []
  | EvReadExcel _ sheet_name :: evs' => writes_by_sheet (Some sheet_name) evs'
  | EvExecute table_name df :: evs' => (last, table_name, df) :: writes_by_sheet last evs'
  | _ :: evs' => writes_by_sheet last evs'
  end.

(** The database after the writes [ws], in order: each creates its table or
    replaces it. *)
Definition apply_writes (w : world) (ws : list (option str * str * dataframe))
    (d : gmap str dataframe) : gmap str dataframe :=
  fold_left (fun d wr => let '(_, table_name, df) := wr in <[table_key w table_name := df]> d)
    ws d.

(** The write [wr] is the write of a loaded sheet: it follows the read of a
    sheet among [names], holds the frame that was read, which is not empty,
    and names the table as the specification does. *)
Definition sheet_write (U : unicode_tables) (w : world) (xlsx_file table_prefix : str)
    (names : list str) (wr : option str * str * dataframe) : Prop :=
  let '(last, table_name, df) := wr in
  exists sheet_name,
    last = Some sheet_name /\ In sheet_name names /\
    read_excel w xlsx_file sheet_name = inr df /\ df_empty df = false /\
    table_name = expected_table_name U table_prefix sheet_name.

(** The write that an entry of [loaded_sheets] records. *)
Definition write_of_entry (e : loaded_entry) : option str * str * dataframe :=
  let '(sheet_name, table_name, row_count, col_count) := e in
  (Some sheet_name, table_name, {| df_rows := row_count; df_columns := col_count |}).

(** An event of a run outside the loop over the sheets and before the close:
    the directory, the workbook, the connection, and the lines printed
    there. *)
Definition opening_event (ev : event) : Prop :=
  match ev with
  | EvMkdir _ | EvExcelFile _ | EvConnect _ => True
  | EvEcho _ (MsgNotFound _) | EvEcho _ (MsgReading _) | EvEcho _ (MsgFound _)
  | EvEcho _ (MsgError _) => True
  | _ => False
  end.

(** The workbook of the specification's examples: [Data 1] has 3 rows and 2
    columns, [Empty] has no row, [Notes-2024] has 5 rows and 4 columns. *)
Definition quarter_world : world := {|
  path_exists _ := true;
  mkdir_error _ := None;
  sheet_names_of _ := inr [lit "Data 1"; lit "Empty"; lit "Notes-2024"];
  read_excel _ sheet_name :=
    if bool_decide (sheet_name = lit "Data 1") then inr {| df_rows := 3; df_columns := 2 |}
    else if bool_decide (sheet_name = lit "Empty") then inr {| df_rows := 0; df_columns := 2 |}
    else inr {| df_rows := 5; df_columns := 4 |};
  connect_error _ := None;
  table_key := ascii_fold;
  execute_error _ _ _ := None;
  glob _ _ := inr []
|}.

(** A workbook that cannot be opened, and a database that cannot be. *)
Definition unreadable_world : world := {|
  path_exists _ := true;
  mkdir_error _ := None;
  sheet_names_of _ := inl (lit "not a zip file");
  read_excel _ _ := inl (lit "not a zip file");
  connect_error _ := None;
  table_key := ascii_fold;
  execute_error _ _ _ := None;
  glob _ _ := inr []
|}.

(** A workbook of three sheets, the second of which cannot be read. *)
Definition corrupt_world : world := {|
  path_exists _ := true;
  mkdir_error _ := None;
  sheet_names_of _ := inr [lit "Data 1"; lit "Broken"; lit "Notes-2024"];
  read_excel _ sheet_name :=
    if bool_decide (sheet_name = lit "Broken") then inl (lit "corrupt sheet")
    else inr {| df_rows := 3; df_columns := 2 |};
  connect_error _ := None;
  table_key := ascii_fold;
  execute_error _ _ _ := None;
  glob _ _ := inr []
|}.

(** ** What the further properties speak of *)

(** The sheets read by the events [evs], in order. *)
Definition sheets_read (evs : list event) : list str :=
  flat_map (fun ev => match ev with EvReadExcel _ sheet_name => [sheet_name] | _ => [] end)
    evs.

(** The files announced by the events [evs], in order. *)
Definition files_announced (evs : list event) : list str :=
  flat_map (fun ev => match ev with
                      | EvEcho _ (MsgProcessingFile name) => [name]
                      | _ => []
                      end) evs.

(** Nothing exists: neither the workbook nor the input directory. *)
Definition absent_world : world := {|
  path_exists _ := false;
  mkdir_error _ := None;
  sheet_names_of _ := inl (lit "no such file");
  read_excel _ _ := inl (lit "no such file");
  connect_error _ := None;
  table_key := ascii_fold;
  execute_error _ _ _ := None;
  glob _ _ := inr []
|}.

(** The directory of the database cannot be created. *)
Definition readonly_world : world := {|
  path_exists _ := true;
  mkdir_error _ := Some (lit "permission denied");
  sheet_names_of _ := inr [lit "Totals"];
  read_excel _ _ := inr {| df_rows := 3; df_columns := 2 |};
  connect_error _ := None;
  table_key := ascii_fold;
  execute_error _ _ _ := None;
  glob _ _ := inr [ {| path_str := lit "in/sales.xlsx"; path_name := lit "sales.xlsx" |} ]
|}.



(** A directory whose listing raises on the empty pattern, as [Path.glob]
    does. *)
Definition refused_pattern_world : world := {|
  path_exists _ := true;
  mkdir_error _ := None;
  sheet_names_of _ := inr [lit "Totals"];
  read_excel _ _ := inr {| df_rows := 3; df_columns := 2 |};
  connect_error _ := None;
  table_key := ascii_fold;
  execute_error _ _ _ := None;
  glob _ file_pattern :=
    match file_pattern with
    | [] => inl (lit "Unacceptable pattern: ''")
    | _ :: _ => inr []
    end
|}.

(** A directory of two workbooks, the first of which cannot be opened. *)
Definition mixed_world : world := {|
  path_exists _ := true;
  mkdir_error _ := None;
  sheet_names_of xlsx_file :=
    if bool_decide (xlsx_file = lit "in/broken.xlsx") then inl (lit "not a zip file")
    else inr [lit "Totals"];
  read_excel _ _ := inr {| df_rows := 3; df_columns := 2 |};
  connect_error _ := None;
  table_key := ascii_fold;
  execute_error _ _ _ := None;
  glob _ _ := inr [ {| path_str := lit "in/broken.xlsx"; path_name := lit "broken.xlsx" |};
                    {| path_str := lit "in/sales.xlsx"; path_name := lit "sales.xlsx" |} ]
|}.

(** * Properties *)

(** ** Characters and lowercase conversion *)

Ltac nbool_step :=
  match goal with
  | |- context [N.leb ?a ?b] => destruct (N.leb_spec a b)
  | |- context [N.ltb ?a ?b] => destruct (N.ltb_spec a b)
  | |- context [N.eqb ?a ?b] => destruct (N.eqb_spec a b)
  | H : context [N.leb ?a ?b] |- _ => destruct (N.leb_spec a b)
  | H : context [N.ltb ?a ?b] |- _ => destruct (N.ltb_spec a b)
  | H : context [N.eqb ?a ?b] |- _ => destruct (N.eqb_spec a b)
  end;
  cbn [andb orb negb implb] in *; try discriminate; try lia.

Ltac nbool := cbn [andb orb negb implb] in *; repeat nbool_step; try reflexivity.

Ltac unfold_chars :=
  unfold lower_alnum_or_underscore, ascii_ident_char, py_isalnum, py_isalpha,
    py_isdecimal, py_isdigit, py_isnumeric, py_isupper, to_lower_full, ascii_lower,
    ascii_isalpha, ascii_isupper, ascii_islower, ascii_isdigit, is_ascii,
    SPACE, HYPHEN, PERIOD, UNDERSCORE, CAPITAL_SIGMA, FINAL_SIGMA, SMALL_SIGMA in *.

Section StringFacts.
Context (U : unicode_tables).

Lemma ascii_ident_char_ascii c : ascii_ident_char c = true -> is_ascii c = true.
Proof. unfold_chars. nbool. Qed.

Lemma ascii_ident_char_class c :
  ascii_ident_char c = true -> lower_alnum_or_underscore U c = true.
Proof. unfold_chars. nbool. Qed.

Lemma ascii_lower_ident c :
  is_ascii c = true -> py_isalnum U c || (c =? UNDERSCORE) = true ->
  ascii_ident_char (ascii_lower c) = true.
Proof. unfold_chars. nbool. Qed.

Lemma ascii_lower_fixed c : ascii_ident_char c = true -> ascii_lower c = c.
Proof. unfold_chars. nbool. Qed.

Lemma py_isdigit_isalnum c : py_isdigit U c = true -> py_isalnum U c = true.
Proof. unfold py_isalnum. intros ->. now rewrite !orb_true_r. Qed.

Lemma py_isdigit_ascii c :
  is_ascii c = true -> py_isdigit U c = ascii_isdigit c.
Proof. unfold py_isdigit. now intros ->. Qed.

Lemma do_lower_ascii_app before p s :
  forallb is_ascii p = true ->
  do_lower U before (p ++ s) = List.map ascii_lower p ++ do_lower U (rev p ++ before) s.
Proof.
  revert before. induction p as [|c p IH]; intros before Hp; [reflexivity|].
  simpl in Hp. apply andb_true_iff in Hp as [Hc Hp].
  cbn [app do_lower List.map rev]. rewrite IH by assumption.
  rewrite <- app_assoc. cbn [app].
  replace (c =? CAPITAL_SIGMA) with false by (revert Hc; unfold_chars; nbool).
  unfold to_lower_full. rewrite Hc. reflexivity.
Qed.

Lemma lower_ascii s : forallb is_ascii s = true -> lower U s = List.map ascii_lower s.
Proof.
  intros Hs. unfold lower.
  rewrite <- (app_nil_r s) at 1. rewrite do_lower_ascii_app by assumption.
  cbn [do_lower]. now rewrite app_nil_r.
Qed.

(** A property of the characters of a lowercase conversion follows from the
    mapping of each character, whatever surrounds it. *)
Lemma do_lower_Forall (P : char -> Prop) before s :
  Forall (fun c =>
    if c =? CAPITAL_SIGMA then P FINAL_SIGMA /\ P SMALL_SIGMA
    else Forall P (to_lower_full U c)) s ->
  Forall P (do_lower U before s).
Proof.
  revert before. induction s as [|c s IH]; intros before Hs; cbn [do_lower].
  - constructor.
  - inversion Hs as [|? ? Hc Hs']; subst. apply Forall_app. split; [|now apply IH].
    destruct (c =? CAPITAL_SIGMA).
    + destruct Hc. destruct (final_sigma U before s); repeat constructor; assumption.
    + assumption.
Qed.

End StringFacts.

(** ** Name Sanitizer *)

Section SanitizerFacts.
Context (U : unicode_tables).

Local Abbreviation keep := (fun c : char => py_isalnum U c || (c =? UNDERSCORE)).
Local Abbreviation replaced name :=
  (replace PERIOD UNDERSCORE (replace HYPHEN UNDERSCORE (replace SPACE UNDERSCORE name))).

(** The three replacements act on each character by itself. *)
Lemma replaced_map name :
  replaced name =
  List.map (fun c => if (c =? SPACE) || (c =? HYPHEN) || (c =? PERIOD)
                     then UNDERSCORE else c) name.
Proof.
  unfold replace. rewrite !List.map_map. apply List.map_ext. intros c.
  unfold_chars. nbool.
Qed.

Lemma replaced_ascii name :
  forallb is_ascii name = true -> forallb is_ascii (replaced name) = true.
Proof.
  rewrite replaced_map. induction name as [|c name IH]; [reflexivity|].
  cbn [forallb List.map]. rewrite !andb_true_iff. intros [Hc Hs]. split; [|auto].
  revert Hc. unfold_chars. nbool.
Qed.

Lemma filter_forallb {A} (f p : A -> bool) l :
  forallb p l = true -> forallb p (List.filter f l) = true.
Proof.
  induction l as [|a l IH]; [reflexivity|]. cbn [forallb List.filter].
  rewrite andb_true_iff. intros [Ha Hl]. destruct (f a); cbn [forallb]; auto.
  rewrite Ha. auto.
Qed.

Lemma filter_keeps {A} (f : A -> bool) l : forallb f (List.filter f l) = true.
Proof.
  induction l as [|a l IH]; [reflexivity|]. cbn [List.filter].
  destruct (f a) eqn:Ha; cbn [forallb]; [rewrite Ha|]; auto.
Qed.

Lemma filter_all {A} (f : A -> bool) l : forallb f l = true -> List.filter f l = l.
Proof.
  induction l as [|a l IH]; [reflexivity|]. cbn [forallb List.filter].
  rewrite andb_true_iff. intros [-> Hl]. now rewrite IH.
Qed.

Lemma forallb_map_id {A} (f : A -> A) (p : A -> bool) l :
  (forall a, p a = true -> f a = a) -> forallb p l = true -> List.map f l = l.
Proof.
  intros Hf. induction l as [|a l IH]; [reflexivity|]. cbn [forallb List.map].
  rewrite andb_true_iff. intros [Ha Hl]. now rewrite Hf, IH.
Qed.

Lemma forallb_impl {A} (p q : A -> bool) l :
  (forall a, p a = true -> q a = true) -> forallb p l = true -> forallb q l = true.
Proof.
  intros Hpq. induction l as [|a l IH]; [reflexivity|]. cbn [forallb].
  rewrite !andb_true_iff. intros [Ha Hl]. auto.
Qed.

(** What [sanitize_table_name] lowers: the kept characters, after the
    literal prefix when the first of them is a digit. *)
Lemma sanitize_unfold name :
  sanitize_table_name U name =
  lower U (match List.filter keep (replaced name) with
           | c :: f => if py_isdigit U c then lit "sheet_" ++ (c :: f) else c :: f
           | [] => []
           end).
Proof. unfold sanitize_table_name. now destruct (List.filter _ _). Qed.

(** *** ASCII names *)

Lemma sanitize_ascii_lowered name :
  forallb is_ascii name = true ->
  exists g, sanitize_table_name U name = List.map ascii_lower g /\
            forallb is_ascii g = true /\ forallb keep g = true /\
            match g with
            | c :: _ => ascii_isdigit c = false
            | [] => True
            end.
Proof.
  intros Hascii. rewrite sanitize_unfold.
  pose proof (filter_forallb keep is_ascii _ (replaced_ascii _ Hascii)) as Hf.
  pose proof (filter_keeps keep (replaced name)) as Hk.
  destruct (List.filter keep (replaced name)) as [|c f].
  - exists []. now rewrite lower_ascii.
  - destruct (py_isdigit U c) eqn:Hd.
    + exists (lit "sheet_" ++ c :: f). repeat split.
      * apply lower_ascii. rewrite forallb_app.
        apply andb_true_iff; split; [reflexivity|exact Hf].
      * rewrite forallb_app. apply andb_true_iff; split; [reflexivity|exact Hf].
      * rewrite forallb_app. apply andb_true_iff; split; [reflexivity|exact Hk].
    + exists (c :: f). repeat split; try assumption.
      * now apply lower_ascii.
      * cbn [forallb] in Hf. apply andb_true_iff in Hf as [Hc _].
        now rewrite <- (py_isdigit_ascii U c Hc).
Qed.

Lemma ascii_lower_not_digit c : ascii_isdigit c = false -> ascii_isdigit (ascii_lower c) = false.
Proof. unfold_chars. nbool. Qed.

(** On an ASCII name the result is made of lowercase ASCII letters, ASCII
    digits and underscores. *)
Lemma sanitize_ascii_charset name :
  forallb is_ascii name = true ->
  forallb ascii_ident_char (sanitize_table_name U name) = true.
Proof.
  intros Hascii. destruct (sanitize_ascii_lowered name Hascii) as (g & -> & Hg & Hk & _).
  clear Hascii. induction g as [|c g IH]; [reflexivity|].
  cbn [forallb List.map] in *. apply andb_true_iff in Hg as [Hc Hg].
  apply andb_true_iff in Hk as [Hkc Hk]. rewrite IH by assumption.
  now rewrite (ascii_lower_ident U c Hc Hkc).
Qed.

Lemma sanitize_ascii_head name :
  forallb is_ascii name = true ->
  match sanitize_table_name U name with
  | c :: _ => ascii_isdigit c = false
  | [] => True
  end.
Proof.
  intros Hascii. destruct (sanitize_ascii_lowered name Hascii) as (g & -> & _ & _ & Hd).
  destruct g as [|c g]; [exact I|]. now apply ascii_lower_not_digit.
Qed.

Lemma ascii_ident_not_replaced c :
  ascii_ident_char c = true ->
  (if (c =? SPACE) || (c =? HYPHEN) || (c =? PERIOD) then UNDERSCORE else c) = c.
Proof. unfold_chars. nbool. Qed.

Lemma ascii_ident_kept c : ascii_ident_char c = true -> keep c = true.
Proof. unfold_chars. nbool. Qed.

(** A name that is already an identifier not starting with a digit is left
    as it is. *)
Lemma sanitize_fixed o :
  forallb ascii_ident_char o = true ->
  match o with
  | c :: _ => ascii_isdigit c = false
  | [] => True
  end ->
  sanitize_table_name U o = o.
Proof.
  intros Ho Hd. rewrite sanitize_unfold, replaced_map.
  rewrite (forallb_map_id _ ascii_ident_char) by auto using ascii_ident_not_replaced.
  rewrite filter_all by (eapply forallb_impl; [apply ascii_ident_kept|assumption]).
  assert (Hascii : forallb is_ascii o = true)
    by (eapply forallb_impl; [apply ascii_ident_char_ascii|assumption]).
  destruct o as [|c o]; [reflexivity|].
  replace (py_isdigit U c) with false.
  - rewrite lower_ascii by assumption.
    apply (forallb_map_id _ ascii_ident_char); auto using ascii_lower_fixed.
  - cbn [forallb] in Hascii. apply andb_true_iff in Hascii as [Hc _].
    now rewrite (py_isdigit_ascii U c Hc).
Qed.

(** Sanitizing twice is sanitizing once, on ASCII names. *)
Lemma sanitize_ascii_idempotent name :
  forallb is_ascii name = true ->
  sanitize_table_name U (sanitize_table_name U name) = sanitize_table_name U name.
Proof.
  intros Hascii. apply sanitize_fixed.
  - now apply sanitize_ascii_charset.
  - now apply sanitize_ascii_head.
Qed.

End SanitizerFacts.

Section SanitizerClaims.
Context (U : unicode_tables).

Local Abbreviation keep := (fun c : char => py_isalnum U c || (c =? UNDERSCORE)).
Local Abbreviation subst_char :=
  (fun c : char => if (c =? SPACE) || (c =? HYPHEN) || (c =? PERIOD) then UNDERSCORE else c).
Local Abbreviation within := (fun c : char => lower_alnum_or_underscore U c = true).
Local Abbreviation image_within :=
  (fun c : char => if c =? CAPITAL_SIGMA then within FINAL_SIGMA /\ within SMALL_SIGMA
                   else Forall within (to_lower_full U c)).

Lemma forallb_Forall_true {A} (p : A -> bool) l :
  forallb p l = true <-> Forall (fun a => p a = true) l.
Proof.
  induction l as [|a l IH]; cbn [forallb].
  - split; [constructor|reflexivity].
  - rewrite andb_true_iff, IH. split.
    + intros [Ha Hl]. now constructor.
    + intros H. inversion H; subst. now split.
Qed.

Lemma underscore_image : image_within UNDERSCORE.
Proof. cbn. repeat constructor. Qed.

Lemma kept_image c :
  implb (py_isalnum U c) (lowers_within U c) = true ->
  keep (subst_char c) = true -> image_within (subst_char c).
Proof.
  intros Himp Hkeep. cbv beta in *.
  destruct ((c =? SPACE) || (c =? HYPHEN) || (c =? PERIOD)) eqn:Hsub;
    [apply underscore_image|].
  apply orb_true_iff in Hkeep as [Halnum|Hus].
  - rewrite Halnum in Himp. cbn [implb] in Himp. unfold lowers_within in Himp.
    destruct (c =? CAPITAL_SIGMA).
    + now apply andb_true_iff in Himp.
    + now apply forallb_Forall_true.
  - apply N.eqb_eq in Hus. subst c. apply underscore_image.
Qed.

Lemma kept_images name :
  forallb (fun c => implb (py_isalnum U c) (lowers_within U c)) name = true ->
  Forall image_within (List.filter keep (List.map subst_char name)).
Proof.
  induction name as [|c name IH]; cbn [forallb List.map List.filter]; [constructor|].
  rewrite andb_true_iff. intros [Hc Hname].
  destruct (keep (subst_char c)) eqn:Hkeep; [|auto].
  constructor; [|auto]. now apply kept_image.
Qed.

(** C4, for the names whose alphanumeric characters each have a lowercase
    mapping made of underscores and of alphanumeric characters that are not
    uppercase letters (every ASCII name is one, see [ascii_lowers_within]):
    the result is made of underscores and of alphanumeric characters that
    are not uppercase letters. *)
Theorem sanitize_table_name_charset name :
  forallb (fun c => implb (py_isalnum U c) (lowers_within U c)) name = true ->
  forallb (lower_alnum_or_underscore U) (sanitize_table_name U name) = true.
Proof.
  intros Hname. rewrite sanitize_unfold, replaced_map.
  apply forallb_Forall_true. apply do_lower_Forall.
  match goal with
  | |- context [match ?l with [] => _ | _ :: _ => _ end] =>
      assert (Hkept : Forall image_within l) by exact (kept_images name Hname);
      destruct l as [|c f]; [constructor|]
  end.
  destruct (py_isdigit U c); [|assumption].
  apply Forall_app. split; [|assumption].
  cbn. repeat constructor.
Qed.

Lemma ascii_lowers_within c :
  is_ascii c = true -> implb (py_isalnum U c) (lowers_within U c) = true.
Proof.
  intros Hc. destruct (py_isalnum U c) eqn:Halnum; [|reflexivity]. cbn [implb].
  unfold lowers_within.
  replace (c =? CAPITAL_SIGMA) with false by (revert Hc; unfold_chars; nbool).
  unfold to_lower_full. rewrite Hc. cbn [forallb]. rewrite andb_true_r.
  apply ascii_ident_char_class, (ascii_lower_ident U); [assumption|].
  now rewrite Halnum.
Qed.

(** C6: a name whose first character is a digit gets the literal prefix
    [sheet_], so that the result starts with a letter and not with a digit. *)
Theorem sanitize_leading_digit c name :
  py_isdigit U c = true ->
  (exists rest, sanitize_table_name U (c :: name) = lit "sheet_" ++ rest) /\
  (exists h rest, sanitize_table_name U (c :: name) = h :: rest /\
     py_isalpha U h = true /\ py_isdigit U h = false).
Proof.
  intros Hd.
  assert (Hform : exists rest, sanitize_table_name U (c :: name) = lit "sheet_" ++ rest).
  { rewrite sanitize_unfold, replaced_map. cbn [List.map].
    assert (Hsub : subst_char c = c).
    { destruct ((c =? SPACE) || (c =? HYPHEN) || (c =? PERIOD)) eqn:Hsub; [|reflexivity].
      exfalso. revert Hd Hsub. unfold_chars. nbool. }
    rewrite Hsub. cbn [List.filter].
    rewrite (py_isdigit_isalnum U c Hd). cbn [orb]. rewrite Hd.
    unfold lower. rewrite do_lower_ascii_app by reflexivity. eauto. }
  split; [assumption|].
  destruct Hform as [rest ->]. exists 115, (lit "heet_" ++ rest). now repeat split.
Qed.

End SanitizerClaims.

Lemma sanitize_table_name_charset_witness :
  forallb (fun c => implb (py_isalnum ucd_excerpt c) (lowers_within ucd_excerpt c))
    (lit "Data 1") = true /\
  forallb (lower_alnum_or_underscore ucd_excerpt)
    (sanitize_table_name ucd_excerpt (lit "Data 1")) = true.
Proof.
  split; [reflexivity|].
  apply (sanitize_table_name_charset ucd_excerpt (lit "Data 1")). reflexivity.
Defined.

(** The claim C4 as the specification states it fails on the double-struck
    capital C (U+2102), an uppercase letter that has no lowercase form: the
    result keeps it. *)
Lemma sanitize_keeps_uppercase :
  sanitize_table_name ucd_excerpt [8450] = [8450] /\
  py_isupper ucd_excerpt 8450 = true /\
  forallb (lower_alnum_or_underscore ucd_excerpt)
    (sanitize_table_name ucd_excerpt [8450]) = false.
Proof. repeat split. Qed.

(** C5 on the sheet name [İstanbul] (it starts with U+0130): the result of the
    first pass holds the combining dot U+0307, which is not alphanumeric; a
    second pass drops it, so that sanitizing twice differs from sanitizing
    once. *)
Theorem sanitize_twice_dotted_capital_I :
  sanitize_table_name ucd_excerpt (304 :: lit "stanbul") = 105 :: 775 :: lit "stanbul" /\
  py_isalnum ucd_excerpt 775 = false /\
  sanitize_table_name ucd_excerpt (sanitize_table_name ucd_excerpt (304 :: lit "stanbul"))
    = lit "istanbul" /\
  sanitize_table_name ucd_excerpt (sanitize_table_name ucd_excerpt (304 :: lit "stanbul"))
    <> sanitize_table_name ucd_excerpt (304 :: lit "stanbul").
Proof. repeat split. discriminate. Qed.

Lemma sanitize_leading_digit_witness :
  py_isdigit ucd_excerpt 50 = true /\
  exists rest, sanitize_table_name ucd_excerpt (50 :: lit "024 Q1") = lit "sheet_" ++ rest.
Proof.
  split; [reflexivity|].
  apply (sanitize_leading_digit ucd_excerpt 50 (lit "024 Q1")). reflexivity.
Defined.

(** ** The timestamp pattern and the derived prefix *)

Section PrefixFacts.
Context (U : unicode_tables).

Local Abbreviation decimal := (fun c : char => py_isdecimal U c = true).

Lemma digits_spec n s r :
  digits U n s = Some r <->
  exists d, s = d ++ r /\ length d = n /\ Forall decimal d.
Proof.
  revert s. induction n as [|n IH]; intros s; cbn [digits].
  - split.
    + intros [= ->]. exists []. repeat split. constructor.
    + intros (d & -> & Hlen & _). destruct d; [reflexivity|discriminate].
  - destruct s as [|c s].
    + split; [discriminate|]. intros (d & Heq & Hlen & _).
      destruct d; discriminate.
    + destruct (py_isdecimal U c) eqn:Hc.
      * rewrite IH. split.
        -- intros (d & -> & Hlen & Hd). exists (c :: d). repeat split.
           ++ cbn. now rewrite Hlen.
           ++ now constructor.
        -- intros (d & Heq & Hlen & Hd). destruct d as [|c' d]; [discriminate|].
           injection Heq as -> ->. injection Hlen as Hlen.
           inversion Hd; subst. now exists d.
      * split; [discriminate|]. intros (d & Heq & Hlen & Hd).
        destruct d as [|c' d]; [discriminate|]. injection Heq as -> ->.
        inversion Hd; subst. congruence.
Qed.

Lemma timestamp_shape_length ts : timestamp_shape U ts -> length ts = 16%nat.
Proof.
  intros (d8 & d6 & -> & H8 & H6 & _). cbn. rewrite length_app. cbn. lia.
Qed.

Lemma match_timestamp_spec s :
  match_timestamp U s = true <-> starts_with_timestamp U s.
Proof.
  unfold match_timestamp, starts_with_timestamp. split.
  - destruct s as [|c s1]; [discriminate|].
    rewrite andb_true_iff. intros [Hc H]. apply N.eqb_eq in Hc. subst c.
    destruct (digits U 8 s1) as [[|c2 s2]|] eqn:H8; try discriminate.
    apply andb_true_iff in H as [Hc2 H6]. apply N.eqb_eq in Hc2. subst c2.
    apply bool_decide_eq_true in H6 as [r H6].
    apply digits_spec in H8 as (d8 & -> & Hl8 & Hd8).
    apply digits_spec in H6 as (d6 & -> & Hl6 & Hd6).
    exists (UNDERSCORE :: d8 ++ UNDERSCORE :: d6), r. split.
    + exists d8, d6. repeat split; try assumption. now apply Forall_app.
    + cbn. rewrite <- !app_assoc. reflexivity.
  - intros (ts & rest & (d8 & d6 & -> & Hl8 & Hl6 & Hd) & ->).
    apply Forall_app in Hd as [Hd8 Hd6].
    cbn [app]. rewrite N.eqb_refl. cbn [andb].
    assert (H8 : digits U 8 ((d8 ++ UNDERSCORE :: d6) ++ rest)
                 = Some (UNDERSCORE :: d6 ++ rest)).
    { apply digits_spec. exists d8. rewrite <- app_assoc. now repeat split. }
    rewrite H8, N.eqb_refl. cbn [andb]. apply bool_decide_eq_true.
    exists rest. apply digits_spec. now exists d6.
Qed.

Lemma re_sub_timestamp_match c s :
  match_timestamp U (c :: s) = true ->
  re_sub_timestamp U (c :: s) = re_sub_timestamp U (drop 15 s).
Proof. intros H. simp re_sub_timestamp. rewrite H. reflexivity. Qed.

Lemma re_sub_timestamp_keep c s :
  match_timestamp U (c :: s) = false ->
  re_sub_timestamp U (c :: s) = c :: re_sub_timestamp U s.
Proof. intros H. simp re_sub_timestamp. rewrite H. reflexivity. Qed.

(** The substitution deletes the timestamps, as [timestamps_deleted] reads
    them. *)
Lemma re_sub_timestamp_deleted s : timestamps_deleted U s (re_sub_timestamp U s).
Proof.
  remember (length s) as n eqn:Hn. revert s Hn.
  induction n as [n IH] using lt_wf_ind. intros s Hn.
  destruct s as [|c s].
  - simp re_sub_timestamp. constructor.
  - destruct (match_timestamp U (c :: s)) eqn:Hm.
    + rewrite re_sub_timestamp_match by assumption.
      pose proof Hm as Hstart. apply match_timestamp_spec in Hstart.
      destruct Hstart as (ts & rest & Hts & Heq).
      pose proof (timestamp_shape_length ts Hts) as Hlen.
      assert (Hdrop : drop 15 s = rest).
      { change (drop 15 s) with (drop 16 (c :: s)). rewrite Heq.
        rewrite drop_app_length'; [reflexivity|now symmetry]. }
      rewrite Hdrop, Heq. apply deleted_timestamp; [assumption|].
      apply (IH (length rest)); [|reflexivity].
      subst n. rewrite Heq, length_app. lia.
    + rewrite re_sub_timestamp_keep by assumption.
      apply deleted_keep.
      * intros Hstart. apply match_timestamp_spec in Hstart. congruence.
      * apply (IH (length s)); [|reflexivity]. subst n. cbn. lia.
Qed.

(** What [timestamps_deleted] relates a name to is unique. *)
Lemma timestamps_deleted_unique s out1 out2 :
  timestamps_deleted U s out1 -> timestamps_deleted U s out2 -> out1 = out2.
Proof.
  intros H1. revert out2.
  induction H1 as [|ts rest out Hts H1 IH|c s out Hno H1 IH]; intros out2 H2.
  - inversion H2 as [|ts' rest' ? Hts' ? Heq|]; subst; [reflexivity|].
    apply timestamp_shape_length in Hts'. destruct ts'; discriminate.
  - inversion H2 as [Heq|ts' rest' ? Hts' H2' Heq|c s' out' Hno' H2' Heq]; subst.
    + apply timestamp_shape_length in Hts. destruct ts; discriminate.
    + pose proof (timestamp_shape_length _ Hts) as Hl.
      pose proof (timestamp_shape_length _ Hts') as Hl'.
      assert (rest' = rest).
      { apply (f_equal (drop 16)) in Heq.
        now rewrite !drop_app_length' in Heq by (now symmetry). }
      subst. auto.
    + exfalso. apply Hno'. exists ts, rest. split; [assumption|congruence].
  - inversion H2 as [|ts' rest' ? Hts' H2' Heq|]; subst.
    + exfalso. apply Hno. exists ts', rest'. split; [assumption|congruence].
    + f_equal. auto.
Qed.

End PrefixFacts.

(** ** Sheet Loader *)

Lemma add_events_app evs1 evs2 st :
  add_events evs2 (add_events evs1 st) = add_events (evs1 ++ evs2) st.
Proof. unfold add_events. cbn. now rewrite app_assoc. Qed.

Lemma add_events_nil st : add_events [] st = st.
Proof. destruct st. unfold add_events. cbn. now rewrite app_nil_r. Qed.

Ltac run_steps :=
  cbv beta iota zeta delta
    [mbind M_bind mret M_ret emit echo when of_result of_error raise try_except
     mkdir_parents ExcelFile_sheet_names pd_read_excel duckdb_connect conn_execute
     conn_close].

Section LoaderFacts.
Context (U : unicode_tables) (w : world).
Context (xlsx_file duckdb_file table_prefix : str) (skip_errors verbose : bool).

Local Abbreviation body := (process_sheet U w xlsx_file table_prefix skip_errors verbose).

(** The loop body, by what becomes of the sheet. *)
Lemma process_sheet_spec sheet_name loaded skipped st :
  body sheet_name (loaded, skipped) st =
  match sheet_outcome_in U w xlsx_file table_prefix sheet_name (db st) with
  | SheetEmpty =>
      (add_events
         (reading_events xlsx_file sheet_name verbose
          ++ (if verbose then [EvEcho false (MsgSkippingEmpty sheet_name)] else []))
         st,
       inr (loaded, skipped ++ [sheet_name ++ lit " (empty)"]))
  | SheetFails msg =>
      if skip_errors then
        (add_events
           (reading_events xlsx_file sheet_name verbose
            ++ (if verbose then [EvEcho false (MsgSkippedSheet sheet_name msg)] else []))
           st,
         inr (loaded, skipped ++ [sheet_name ++ lit " (error: " ++ msg ++ lit ")"]))
      else
        (add_events
           (reading_events xlsx_file sheet_name verbose
            ++ [EvEcho true (MsgSheetError sheet_name msg)])
           st,
         inl (TyperExit 1))
  | SheetLoads table_name df =>
      ({| db := <[table_key w table_name := df]> (db st);
          open_conns := open_conns st;
          trace := trace st
                   ++ reading_events xlsx_file sheet_name verbose
                   ++ [EvExecute table_name df]
                   ++ (if verbose
                       then [EvEcho false
                               (MsgCreated table_name (df_rows df) (df_columns df))]
                       else []) |},
       inr (loaded ++ [(sheet_name, table_name, df_rows df, df_columns df)], skipped))
  end.
Proof.
  unfold sheet_outcome_in, process_sheet, reading_events, expected_table_name.
  change (lit "_") with [UNDERSCORE]. run_steps.
  destruct (read_excel w xlsx_file sheet_name) as [msg|df] eqn:Hread.
  - destruct verbose, skip_errors; cbn -[lit]; rewrite ?add_events_app; reflexivity.
  - destruct (df_empty df) eqn:Hempty.
    + destruct verbose; cbn -[lit]; rewrite ?Hempty; cbn -[lit];
        rewrite ?add_events_app; reflexivity.
    + destruct verbose, table_prefix as [|p0 prefix']; cbn -[lit];
        rewrite ?Hempty; cbn -[lit];
        match goal with
        | |- context [execute_error w ?d ?t df] =>
            destruct (execute_error w d t df) as [msg|] eqn:Hexec
        end;
        cbn -[lit]; destruct skip_errors; cbn -[lit];
        unfold add_events; cbn -[lit]; rewrite <- ?app_assoc; reflexivity.
Qed.

Lemma for_each_app {A B} (l1 l2 : list A) (f : A -> B -> M B) acc st :
  for_each (l1 ++ l2) f acc st =
  match for_each l1 f acc st with
  | (st1, inr acc1) => for_each l2 f acc1 st1
  | (st1, inl e) => (st1, inl e)
  end.
Proof.
  revert acc st. induction l1 as [|x l1 IH]; intros acc st; cbn [app for_each].
  - reflexivity.
  - run_steps. destruct (f x acc st) as [st1 [e|acc1]]; [reflexivity|apply IH].
Qed.

Lemma loop_event_incl names names' ev :
  (forall s, In s names -> In s names') ->
  loop_event U table_prefix names ev -> loop_event U table_prefix names' ev.
Proof.
  intros Hincl. destruct ev as [| | | |t df| |err m]; cbn; auto.
  intros (s & Hin & ->). eauto.
Qed.

Lemma loop_events_incl names names' evs :
  (forall s, In s names -> In s names') ->
  Forall (loop_event U table_prefix names) evs ->
  Forall (loop_event U table_prefix names') evs.
Proof.
  intros Hincl H. eapply Forall_impl; [exact H|].
  intros ev. now apply loop_event_incl.
Qed.

(** What one turn of the loop may change. *)
Lemma process_sheet_inv sheet_name loaded0 skipped0 st st' r :
  body sheet_name (loaded0, skipped0) st = (st', r) ->
  open_conns st' = open_conns st /\
  (exists evs, trace st' = trace st ++ evs /\
     Forall (loop_event U table_prefix [sheet_name]) evs) /\
  (forall t, is_Some (db st !! t) -> is_Some (db st' !! t)) /\
  (forall t, is_Some (db st' !! t) ->
     is_Some (db st !! t) \/
     t = table_key w (expected_table_name U table_prefix sheet_name)) /\
  match r with
  | inr (loaded, skipped) =>
      (loaded = loaded0 \/
       exists rows cols,
         loaded = loaded0 ++
           [(sheet_name, expected_table_name U table_prefix sheet_name, rows, cols)] /\
         is_Some (db st' !! table_key w (expected_table_name U table_prefix sheet_name))) /\
      exists news, skipped = skipped0 ++ news
  | inl e => e = TyperExit 1 /\ skip_errors = false /\ db st' = db st
  end.
Proof.
  rewrite process_sheet_spec. unfold sheet_outcome_in, reading_events.
  destruct (read_excel w xlsx_file sheet_name) as [msg|df];
    [|destruct (df_empty df);
      [|destruct (execute_error w (db st) _ df) as [msg|]]];
    try destruct skip_errors; intros Heq; apply pair_equal_spec in Heq as [<- <-];
    cbn [db open_conns trace add_events].
  all: split; [reflexivity|].
  all: split;
    [eexists; split; [reflexivity|];
     destruct verbose; repeat constructor; exists sheet_name; now (split; [left|])|].
  all: try (split; [auto|]; split; [auto|];
            first [now (split; [left|eexists]) | now repeat split]).
  all: split; [|split; [|split]].
  all: try (intros t Ht; apply lookup_insert_is_Some;
            destruct (decide (table_key w (expected_table_name U table_prefix sheet_name) = t));
            now auto).
  all: try (intros t Ht; apply lookup_insert_is_Some in Ht as [Ht|[_ Ht]]; now auto).
  all: try (right; exists (df_rows df), (df_columns df); split; [reflexivity|];
            rewrite lookup_insert_eq; now eauto).
  all: exists []; now rewrite app_nil_r.
Qed.

Lemma entry_named_mono names names' d d' e :
  (forall s, In s names -> In s names') ->
  (forall t, is_Some (d !! t) -> is_Some (d' !! t)) ->
  entry_named U w table_prefix names d e -> entry_named U w table_prefix names' d' e.
Proof.
  intros Hn Hd. destruct e as [[[sheet t] rows] cols]. intros (Hin & Ht & Hsome).
  repeat split; auto.
Qed.

(** What the loop over the sheets may change. *)
Lemma sheets_loop_inv names loaded0 skipped0 st st' r :
  for_each names body (loaded0, skipped0) st = (st', r) ->
  open_conns st' = open_conns st /\
  (exists evs, trace st' = trace st ++ evs /\
     Forall (loop_event U table_prefix names) evs) /\
  (forall t, is_Some (db st !! t) -> is_Some (db st' !! t)) /\
  (forall t, is_Some (db st' !! t) ->
     is_Some (db st !! t) \/
     exists sheet_name,
       In sheet_name names /\
       t = table_key w (expected_table_name U table_prefix sheet_name)) /\
  match r with
  | inr (loaded, skipped) =>
      (exists new, loaded = loaded0 ++ new /\
         Forall (entry_named U w table_prefix names (db st')) new) /\
      exists news, skipped = skipped0 ++ news
  | inl e => e = TyperExit 1 /\ skip_errors = false
  end.
Proof.
  revert loaded0 skipped0 st.
  induction names as [|n names IH]; intros loaded0 skipped0 st; cbn [for_each].
  - intros Heq. apply pair_equal_spec in Heq as [<- <-].
    repeat split; auto.
    + exists []. now rewrite app_nil_r.
    + exists []. now rewrite app_nil_r.
    + exists []. now rewrite app_nil_r.
  - run_steps.
    destruct (body n (loaded0, skipped0) st) as [st1 [e|[l1 s1]]] eqn:Hstep;
      apply process_sheet_inv in Hstep
        as (Hconn & (evs1 & Htr1 & Hev1) & Hmono1 & Hnew1 & Hres1).
    + intros Heq. apply pair_equal_spec in Heq as [<- <-].
      destruct Hres1 as (-> & Hskip & Hdb).
      split; [assumption|]. split.
      { exists evs1. split; [assumption|].
        eapply loop_events_incl; [|exact Hev1]. intros s [<- | [ ]]. now left. }
      split; [assumption|]. split; [|now split].
      intros t Ht. destruct (Hnew1 t Ht) as [? | ->]; [now left|].
      right. exists n. split; [now left|reflexivity].
    + intros Hrest. apply IH in Hrest
        as (Hconn2 & (evs2 & Htr2 & Hev2) & Hmono2 & Hnew2 & Hres2).
      split; [congruence|]. split.
      { exists (evs1 ++ evs2). split.
        - rewrite Htr2, Htr1. now rewrite app_assoc.
        - apply Forall_app. split.
          + eapply loop_events_incl; [|exact Hev1]. intros s [<- | [ ]]. now left.
          + eapply loop_events_incl; [|exact Hev2]. intros s Hs. now right. }
      split; [auto|]. split.
      { intros t Ht. destruct (Hnew2 t Ht) as [Ht1|(sheet & Hin & ->)].
        - destruct (Hnew1 t Ht1) as [? | ->]; [now left|].
          right. exists n. split; [now left|reflexivity].
        - right. exists sheet. split; [now right|reflexivity]. }
      destruct r as [e|[loaded skipped]]; [assumption|].
      destruct Hres2 as ((new2 & -> & Hnamed2) & (news2 & ->)).
      destruct Hres1 as (Hl1 & (news1 & ->)). split.
      * destruct Hl1 as [->|(rows & cols & -> & Hsome)].
        -- exists new2. split; [reflexivity|].
           eapply Forall_impl; [exact Hnamed2|]. intros e.
           apply entry_named_mono; [|auto]. intros s Hs. now right.
        -- eexists (_ :: new2). split; [now rewrite <- app_assoc|].
           constructor.
           ++ repeat split; [now left|auto].
           ++ eapply Forall_impl; [exact Hnamed2|]. intros e.
              apply entry_named_mono; [|auto]. intros s Hs. now right.
      * exists (news1 ++ news2). now rewrite app_assoc.
Qed.

(** A run whose workbook opens and whose connection opens: the loop over
    the sheets, then the close and the summary, or the error exit. *)
Lemma load_xlsx_run names st :
  path_exists w xlsx_file = true ->
  mkdir_error w duckdb_file = None ->
  sheet_names_of w xlsx_file = inr names ->
  connect_error w duckdb_file = None ->
  load_xlsx U w xlsx_file duckdb_file table_prefix skip_errors verbose st =
  match for_each names body ([], [])
          (loop_start xlsx_file duckdb_file verbose names st) with
  | (st1, inr (loaded, skipped)) =>
      ({| db := db st1; open_conns := pred (open_conns st1);
          trace := trace st1
                   ++ [EvClose;
                       EvEcho false (MsgSummary xlsx_file duckdb_file loaded skipped)] |},
       inr tt)
  | (st1, inl e) =>
      (add_events [EvEcho true (MsgError (str_exn e))] st1, inl (TyperExit 1))
  end.
Proof.
  intros Hexists Hmkdir Hnames Hconnect. unfold load_xlsx.
  rewrite Hexists. cbn [negb]. run_steps. rewrite Hmkdir, Hnames, Hconnect.
  unfold loop_start, opening_events.
  destruct verbose; cbn -[for_each process_sheet str_exn];
    rewrite <- ?app_assoc; cbn [app];
    destruct (for_each names _ _ _) as [st1 [e|[loaded skipped]]];
    cbn -[str_exn]; unfold add_events; cbn -[str_exn];
    rewrite <- ?app_assoc; reflexivity.
Qed.

End LoaderFacts.

(** *** Failures before the loop *)

Section BeforeLoop.
Context (U : unicode_tables) (w : world).
Context (xlsx_file duckdb_file table_prefix : str) (skip_errors verbose : bool).

Lemma load_xlsx_not_found st :
  path_exists w xlsx_file = false ->
  load_xlsx U w xlsx_file duckdb_file table_prefix skip_errors verbose st =
  (add_events [EvEcho true (MsgNotFound xlsx_file)] st, inl (TyperExit 1)).
Proof. intros H. unfold load_xlsx. rewrite H. reflexivity. Qed.

Lemma load_xlsx_mkdir_fails msg st :
  path_exists w xlsx_file = true ->
  mkdir_error w duckdb_file = Some msg ->
  load_xlsx U w xlsx_file duckdb_file table_prefix skip_errors verbose st =
  (add_events [EvMkdir duckdb_file] st, inl (PyError msg)).
Proof.
  intros Hexists Hmkdir. unfold load_xlsx. rewrite Hexists. cbn [negb].
  run_steps. rewrite Hmkdir. reflexivity.
Qed.

Lemma load_xlsx_workbook_fails msg st :
  path_exists w xlsx_file = true ->
  mkdir_error w duckdb_file = None ->
  sheet_names_of w xlsx_file = inl msg ->
  load_xlsx U w xlsx_file duckdb_file table_prefix skip_errors verbose st =
  (add_events
     ([EvMkdir duckdb_file]
      ++ (if verbose then [EvEcho false (MsgReading xlsx_file)] else [])
      ++ [EvExcelFile xlsx_file; EvEcho true (MsgError msg)]) st,
   inl (TyperExit 1)).
Proof.
  intros Hexists Hmkdir Hnames. unfold load_xlsx. rewrite Hexists. cbn [negb].
  run_steps. rewrite Hmkdir, Hnames.
  destruct verbose; cbn; rewrite ?add_events_app; reflexivity.
Qed.

Lemma load_xlsx_connect_fails names msg st :
  path_exists w xlsx_file = true ->
  mkdir_error w duckdb_file = None ->
  sheet_names_of w xlsx_file = inr names ->
  connect_error w duckdb_file = Some msg ->
  load_xlsx U w xlsx_file duckdb_file table_prefix skip_errors verbose st =
  (add_events
     ([EvMkdir duckdb_file]
      ++ (if verbose then [EvEcho false (MsgReading xlsx_file)] else [])
      ++ [EvExcelFile xlsx_file]
      ++ (if verbose then [EvEcho false (MsgFound names)] else [])
      ++ [EvEcho true (MsgError msg)]) st,
   inl (TyperExit 1)).
Proof.
  intros Hexists Hmkdir Hnames Hconnect. unfold load_xlsx. rewrite Hexists. cbn [negb].
  run_steps. rewrite Hmkdir, Hnames, Hconnect.
  destruct verbose; cbn; rewrite ?add_events_app; reflexivity.
Qed.

End BeforeLoop.

(** C10: the skip-errors flag covers the loop body only: with the flag on a
    turn of the loop never raises; whatever the flag, a workbook whose sheet
    names cannot be listed, or a database that cannot be opened, ends the
    command with exit code 1, no sheet being read and no table written. *)
Theorem failure_before_loop_is_fatal U w xlsx_file duckdb_file table_prefix
    skip_errors verbose msg st :
  path_exists w xlsx_file = true ->
  mkdir_error w duckdb_file = None ->
  sheet_names_of w xlsx_file = inl msg \/
  (exists names, sheet_names_of w xlsx_file = inr names /\
                 connect_error w duckdb_file = Some msg) ->
  (forall sheet_name acc st0, exists st1 acc1,
     process_sheet U w xlsx_file table_prefix true verbose sheet_name acc st0
     = (st1, inr acc1)) /\
  exists st' evs,
    load_xlsx U w xlsx_file duckdb_file table_prefix skip_errors verbose st
    = (st', inl (TyperExit 1)) /\
    exit_code
      (snd (load_xlsx U w xlsx_file duckdb_file table_prefix skip_errors verbose st))
    = 1%Z /\
    db st' = db st /\ open_conns st' = open_conns st /\
    trace st' = trace st ++ evs /\
    In (EvEcho true (MsgError msg)) evs /\
    (forall x s, ~ In (EvReadExcel x s) evs) /\
    (forall t df, ~ In (EvExecute t df) evs).
Proof.
  intros Hexists Hmkdir Hfail. split.
  - intros sheet_name [loaded skipped] st0. rewrite process_sheet_spec.
    destruct (sheet_outcome_in _ _ _ _ _ _); eauto.
  - destruct Hfail as [Hnames|(names & Hnames & Hconnect)].
    + rewrite (load_xlsx_workbook_fails U w _ _ _ _ _ msg st) by assumption.
      do 2 eexists. repeat split.
      * rewrite !in_app_iff. right. right. cbn. auto.
      * intros x s Hin. rewrite !in_app_iff in Hin.
        destruct verbose; cbn in Hin; intuition discriminate.
      * intros t df Hin. rewrite !in_app_iff in Hin.
        destruct verbose; cbn in Hin; intuition discriminate.
    + rewrite (load_xlsx_connect_fails U w _ _ _ _ _ names msg st) by assumption.
      do 2 eexists. repeat split.
      * rewrite !in_app_iff. do 4 right. cbn. auto.
      * intros x s Hin. rewrite !in_app_iff in Hin.
        destruct verbose; cbn in Hin; intuition discriminate.
      * intros t df Hin. rewrite !in_app_iff in Hin.
        destruct verbose; cbn in Hin; intuition discriminate.
Qed.

Lemma failure_before_loop_is_fatal_witness :
  exit_code
    (snd (load_xlsx ucd_excerpt unreadable_world (lit "book.xlsx") (lit "out.duckdb")
            [] true false initial_state))
  = 1%Z.
Proof.
  refine (let H := failure_before_loop_is_fatal ucd_excerpt unreadable_world
                     (lit "book.xlsx") (lit "out.duckdb") [] true false
                     (lit "not a zip file") initial_state
                     eq_refl eq_refl (or_introl eq_refl) in _).
  destruct H as (_ & st' & evs & _ & Hcode & _). exact Hcode.
Defined.

(** C9: a sheet whose read yields no row is recorded as skipped with the
    reason [empty]; the turn of the loop writes no table and leaves the
    database as it was. *)
Theorem empty_sheet_skipped U w xlsx_file table_prefix skip_errors verbose
    sheet_name df loaded skipped st :
  read_excel w xlsx_file sheet_name = inr df ->
  df_rows df = 0%nat ->
  exists st' evs,
    process_sheet U w xlsx_file table_prefix skip_errors verbose sheet_name
      (loaded, skipped) st
    = (st', inr (loaded, skipped ++ [sheet_name ++ lit " (empty)"])) /\
    db st' = db st /\
    trace st' = trace st ++ evs /\
    (forall t d, ~ In (EvExecute t d) evs).
Proof.
  intros Hread Hrows. rewrite process_sheet_spec. unfold sheet_outcome_in.
  rewrite Hread. unfold df_empty. rewrite Hrows. cbn [Nat.eqb orb].
  do 2 eexists. repeat split.
  intros t d Hin. unfold reading_events in Hin. rewrite !in_app_iff in Hin.
  destruct verbose; cbn in Hin; intuition discriminate.
Qed.

Lemma empty_sheet_skipped_witness :
  exists st' evs,
    process_sheet ucd_excerpt quarter_world (lit "book.xlsx") [] true false (lit "Empty")
      ([], []) initial_state
    = (st', inr ([], [lit "Empty (empty)"])) /\
    db st' = db initial_state /\
    trace st' = trace initial_state ++ evs /\
    (forall t d, ~ In (EvExecute t d) evs).
Proof.
  exact (empty_sheet_skipped ucd_excerpt quarter_world (lit "book.xlsx") [] true false
           (lit "Empty") {| df_rows := 0; df_columns := 2 |} [] [] initial_state
           eq_refl eq_refl).
Defined.

(** *** A sheet that fails *)

Lemma sheets_loop_named U w xlsx_file table_prefix skip_errors verbose names st st'
    loaded skipped :
  for_each names (process_sheet U w xlsx_file table_prefix skip_errors verbose)
    ([], []) st = (st', inr (loaded, skipped)) ->
  Forall (entry_named U w table_prefix names (db st')) loaded.
Proof.
  intros Hloop.
  apply sheets_loop_inv in Hloop as (_ & _ & _ & _ & (new & -> & Hnamed) & _).
  exact Hnamed.
Qed.

(** With the skip-errors flag the loop over the sheets runs to its end. *)
Lemma sheets_loop_skip_total U w xlsx_file table_prefix verbose names acc st :
  exists st' acc',
    for_each names (process_sheet U w xlsx_file table_prefix true verbose) acc st
    = (st', inr acc').
Proof.
  destruct acc as [loaded skipped].
  destruct (for_each names _ (loaded, skipped) st) as [st' [e|acc']] eqn:Hloop; [|eauto].
  apply sheets_loop_inv in Hloop as (_ & _ & _ & _ & _ & Hskip). discriminate.
Qed.

(** C1: without the skip-errors flag, a sheet whose read or write raises an
    error ends the run at once with exit code 1: the state is the one the
    earlier sheets left, with the failing sheet's read and the two error lines
    added to the events, whatever sheets follow; the tables of the earlier
    sheets are in the database. *)
Theorem abort_on_sheet_error U w xlsx_file duckdb_file table_prefix verbose
    pre bad post msg st st1 loaded skipped :
  path_exists w xlsx_file = true ->
  mkdir_error w duckdb_file = None ->
  sheet_names_of w xlsx_file = inr (pre ++ bad :: post) ->
  connect_error w duckdb_file = None ->
  for_each pre (process_sheet U w xlsx_file table_prefix false verbose) ([], [])
    (loop_start xlsx_file duckdb_file verbose (pre ++ bad :: post) st)
  = (st1, inr (loaded, skipped)) ->
  sheet_outcome_in U w xlsx_file table_prefix bad (db st1) = SheetFails msg ->
  exists st2,
    load_xlsx U w xlsx_file duckdb_file table_prefix false verbose st
    = (st2, inl (TyperExit 1)) /\
    exit_code
      (snd (load_xlsx U w xlsx_file duckdb_file table_prefix false verbose st)) = 1%Z /\
    st2 = add_events
            (reading_events xlsx_file bad verbose
             ++ [EvEcho true (MsgSheetError bad msg); EvEcho true (MsgError (lit "1"))])
            st1 /\
    db st2 = db st1 /\
    Forall (entry_named U w table_prefix pre (db st2)) loaded.
Proof.
  intros Hexists Hmkdir Hnames Hconnect Hpre Hbad.
  rewrite (load_xlsx_run U w _ _ _ _ _ _ st Hexists Hmkdir Hnames Hconnect).
  rewrite for_each_app, Hpre. cbn [for_each]. run_steps.
  rewrite process_sheet_spec, Hbad.
  eexists. split; [reflexivity|]. split; [reflexivity|].
  split; [now rewrite add_events_app, <- app_assoc|].
  split; [reflexivity|].
  exact (sheets_loop_named _ _ _ _ _ _ _ _ _ _ _ Hpre).
Qed.

Lemma abort_on_sheet_error_witness :
  exists st2,
    load_xlsx ucd_excerpt corrupt_world (lit "book.xlsx") (lit "out.duckdb") [] false false
      initial_state
    = (st2, inl (TyperExit 1)) /\
    is_Some (db st2 !! lit "data_1") /\
    db st2 !! lit "notes_2024" = None.
Proof.
  destruct (abort_on_sheet_error ucd_excerpt corrupt_world (lit "book.xlsx")
              (lit "out.duckdb") [] false [lit "Data 1"] (lit "Broken")
              [lit "Notes-2024"] (lit "corrupt sheet") initial_state
              _ _ _ eq_refl eq_refl eq_refl eq_refl eq_refl eq_refl)
    as (st2 & Hrun & _ & Hst2 & _ & _).
  exists st2. split; [exact Hrun|]. rewrite Hst2. split; [|reflexivity].
  eexists. reflexivity.
Defined.

(** C2: with the skip-errors flag, a sheet whose read or write raises an
    error is recorded as skipped with the reason [error: ] and the message,
    the database being left as it was; the loop goes on with the sheets that
    follow and runs to its end; the command closes the connection, prints the
    summary with the entry in it, and returns, the exit code being 0. *)
Theorem skip_on_sheet_error U w xlsx_file duckdb_file table_prefix verbose
    pre bad post msg st st1 loaded1 skipped1 :
  path_exists w xlsx_file = true ->
  mkdir_error w duckdb_file = None ->
  sheet_names_of w xlsx_file = inr (pre ++ bad :: post) ->
  connect_error w duckdb_file = None ->
  for_each pre (process_sheet U w xlsx_file table_prefix true verbose) ([], [])
    (loop_start xlsx_file duckdb_file verbose (pre ++ bad :: post) st)
  = (st1, inr (loaded1, skipped1)) ->
  sheet_outcome_in U w xlsx_file table_prefix bad (db st1) = SheetFails msg ->
  exists st1' st2 st3 loaded skipped,
    process_sheet U w xlsx_file table_prefix true verbose bad (loaded1, skipped1) st1
    = (st1', inr (loaded1, skipped1 ++ [bad ++ lit " (error: " ++ msg ++ lit ")"])) /\
    db st1' = db st1 /\
    for_each post (process_sheet U w xlsx_file table_prefix true verbose)
      (loaded1, skipped1 ++ [bad ++ lit " (error: " ++ msg ++ lit ")"]) st1'
    = (st2, inr (loaded, skipped)) /\
    load_xlsx U w xlsx_file duckdb_file table_prefix true verbose st = (st3, inr tt) /\
    exit_code
      (snd (load_xlsx U w xlsx_file duckdb_file table_prefix true verbose st)) = 0%Z /\
    In (bad ++ lit " (error: " ++ msg ++ lit ")") skipped /\
    trace st3 = trace st2
                ++ [EvClose; EvEcho false (MsgSummary xlsx_file duckdb_file loaded skipped)].
Proof.
  intros Hexists Hmkdir Hnames Hconnect Hpre Hbad.
  rewrite (load_xlsx_run U w _ _ _ _ _ _ st Hexists Hmkdir Hnames Hconnect).
  rewrite for_each_app, Hpre. cbn [for_each]. run_steps.
  rewrite process_sheet_spec, Hbad.
  match goal with
  | |- context [for_each post ?f ?acc ?s] =>
      destruct (sheets_loop_skip_total U w xlsx_file table_prefix verbose post acc s)
        as (st2 & [loaded skipped] & Hpost)
  end.
  rewrite Hpost.
  do 5 eexists. split; [reflexivity|]. split; [reflexivity|].
  split; [exact Hpost|]. split; [reflexivity|]. split; [reflexivity|].
  split; [|reflexivity].
  apply sheets_loop_inv in Hpost as (_ & _ & _ & _ & _ & (news & ->)).
  rewrite !in_app_iff. left. right. now left.
Qed.

Lemma skip_on_sheet_error_witness :
  exists st3,
    load_xlsx ucd_excerpt corrupt_world (lit "book.xlsx") (lit "out.duckdb") [] true false
      initial_state
    = (st3, inr tt).
Proof.
  destruct (skip_on_sheet_error ucd_excerpt corrupt_world (lit "book.xlsx")
              (lit "out.duckdb") [] false [lit "Data 1"] (lit "Broken")
              [lit "Notes-2024"] (lit "corrupt sheet") initial_state
              _ _ _ eq_refl eq_refl eq_refl eq_refl eq_refl eq_refl)
    as (st1' & st2 & st3 & loaded & skipped & _ & _ & _ & Hrun & _).
  exists st3. exact Hrun.
Defined.

(** *** The connection *)

(** A run that returns has closed the connection it opened. *)
Lemma load_xlsx_returns_closed U w xlsx_file duckdb_file table_prefix skip_errors verbose
    st st' :
  load_xlsx U w xlsx_file duckdb_file table_prefix skip_errors verbose st = (st', inr tt) ->
  open_conns st' = open_conns st.
Proof.
  destruct (path_exists w xlsx_file) eqn:Hexists;
    [|now rewrite load_xlsx_not_found].
  destruct (mkdir_error w duckdb_file) as [msg|] eqn:Hmkdir;
    [now rewrite (load_xlsx_mkdir_fails U w _ _ _ _ _ msg)|].
  destruct (sheet_names_of w xlsx_file) as [msg|names] eqn:Hnames;
    [now rewrite (load_xlsx_workbook_fails U w _ _ _ _ _ msg)|].
  destruct (connect_error w duckdb_file) as [msg|] eqn:Hconnect;
    [now rewrite (load_xlsx_connect_fails U w _ _ _ _ _ names msg)|].
  rewrite (load_xlsx_run U w _ _ _ _ _ names st) by assumption.
  destruct (for_each names _ _ _) as [st1 [e|[loaded skipped]]] eqn:Hloop; [discriminate|].
  intros [= <-]. cbn [open_conns].
  apply sheets_loop_inv in Hloop as (-> & _). reflexivity.
Qed.

(** A run that a failing sheet ends leaves its connection open. *)
Lemma sheet_abort_leaves_connection_open U w xlsx_file duckdb_file table_prefix verbose
    pre bad post msg st st1 loaded skipped :
  path_exists w xlsx_file = true ->
  mkdir_error w duckdb_file = None ->
  sheet_names_of w xlsx_file = inr (pre ++ bad :: post) ->
  connect_error w duckdb_file = None ->
  for_each pre (process_sheet U w xlsx_file table_prefix false verbose) ([], [])
    (loop_start xlsx_file duckdb_file verbose (pre ++ bad :: post) st)
  = (st1, inr (loaded, skipped)) ->
  sheet_outcome_in U w xlsx_file table_prefix bad (db st1) = SheetFails msg ->
  open_conns
    (fst (load_xlsx U w xlsx_file duckdb_file table_prefix false verbose st))
  = S (open_conns st).
Proof.
  intros Hexists Hmkdir Hnames Hconnect Hpre Hbad.
  rewrite (load_xlsx_run U w _ _ _ _ _ _ st Hexists Hmkdir Hnames Hconnect).
  rewrite for_each_app, Hpre. cbn [for_each]. run_steps.
  rewrite process_sheet_spec, Hbad. cbn [fst add_events open_conns].
  apply sheets_loop_inv in Hpre as (-> & _). reflexivity.
Qed.

(** C3 on the workbook whose second sheet cannot be read, without the
    skip-errors flag: the command opens the connection, ends with exit code 1,
    and has not closed the connection. *)
Theorem connection_left_open_on_abort U :
  let run := load_xlsx U corrupt_world (lit "book.xlsx") (lit "out.duckdb") [] false false
               initial_state in
  snd run = inl (TyperExit 1) /\
  In (EvConnect (lit "out.duckdb")) (trace (fst run)) /\
  ~ In EvClose (trace (fst run)) /\
  open_conns (fst run) = 1%nat.
Proof.
  cbv zeta. split; [reflexivity|]. split; [vm_compute; auto 10|].
  split; [vm_compute; intuition discriminate|reflexivity].
Qed.

(** *** Table names *)

Lemma writes_by_sheet_app last evs1 evs2 :
  writes_by_sheet last (evs1 ++ evs2)
  = writes_by_sheet last evs1 ++ writes_by_sheet (last_read last evs1) evs2.
Proof.
  revert last. induction evs1 as [|ev evs1 IH]; intros last; [reflexivity|].
  destruct ev; cbn [app writes_by_sheet last_read]; rewrite ?IH; reflexivity.
Qed.

Lemma last_read_app last evs1 evs2 :
  last_read last (evs1 ++ evs2) = last_read (last_read last evs1) evs2.
Proof.
  revert last. induction evs1 as [|ev evs1 IH]; intros last; [reflexivity|].
  destruct ev; cbn [app last_read]; rewrite ?IH; reflexivity.
Qed.

(** The writes are the execute events. *)
Lemma writes_by_sheet_executes last evs table_name df :
  In (EvExecute table_name df) evs <->
  exists sheet, In (sheet, table_name, df) (writes_by_sheet last evs).
Proof.
  revert last. induction evs as [|ev evs IH]; intros last.
  - split; [intros [ ]|intros [sheet [ ]]].
  - split.
    + intros [-> | Hin].
      * exists last. now left.
      * destruct ev; cbn [writes_by_sheet]; try exact (proj1 (IH _) Hin).
        destruct (proj1 (IH last) Hin) as [sheet Hsheet]. exists sheet. now right.
    + intros [sheet Hin]. destruct ev; cbn [writes_by_sheet] in Hin;
        try (right; exact (proj2 (IH _) (ex_intro _ sheet Hin))).
      destruct Hin as [Heq | Hin].
      * left. injection Heq as _ <- <-. reflexivity.
      * right. exact (proj2 (IH last) (ex_intro _ sheet Hin)).
Qed.

Lemma apply_writes_app w ws1 ws2 d :
  apply_writes w (ws1 ++ ws2) d = apply_writes w ws2 (apply_writes w ws1 d).
Proof. apply fold_left_app. Qed.

Lemma apply_writes_cons w sheet table_name df ws d :
  apply_writes w ((sheet, table_name, df) :: ws) d
  = apply_writes w ws (<[table_key w table_name := df]> d).
Proof. reflexivity. Qed.

(** No write drops a table. *)
Lemma apply_writes_mono w ws d key :
  is_Some (d !! key) -> is_Some (apply_writes w ws d !! key).
Proof.
  revert d. induction ws as [|[[sheet t] df] ws IH]; intros d Hsome; [exact Hsome|].
  rewrite apply_writes_cons. apply IH. apply lookup_insert_is_Some.
  destruct (decide (table_key w t = key)); auto.
Qed.

Lemma apply_writes_is_Some w ws d sheet table_name df :
  In (sheet, table_name, df) ws ->
  is_Some (apply_writes w ws d !! table_key w table_name).
Proof.
  revert d. induction ws as [|[[sheet' t] df'] ws IH]; intros d; [intros [ ]|].
  rewrite apply_writes_cons. intros [[= -> -> ->] | Hin]; [|now apply IH].
  apply apply_writes_mono. rewrite lookup_insert_eq. now eexists.
Qed.



Lemma sheet_write_incl U w xlsx_file table_prefix names names' wr :
  (forall s, In s names -> In s names') ->
  sheet_write U w xlsx_file table_prefix names wr ->
  sheet_write U w xlsx_file table_prefix names' wr.
Proof.
  intros Hincl. destruct wr as [[last t] df].
  intros (sheet & Hlast & Hin & Hrest). exists sheet. split; [assumption|]. split; auto.
Qed.

Lemma opening_events_writes xlsx_file duckdb_file verbose names last :
  writes_by_sheet last (opening_events xlsx_file duckdb_file verbose names) = [] /\
  last_read last (opening_events xlsx_file duckdb_file verbose names) = last.
Proof. unfold opening_events. now destruct verbose. Qed.

Section TableNames.
Context (U : unicode_tables) (w : world).
Context (xlsx_file duckdb_file table_prefix : str) (skip_errors verbose : bool).

Local Abbreviation body := (process_sheet U w xlsx_file table_prefix skip_errors verbose).
Local Abbreviation table_of := (expected_table_name U table_prefix).

(** One turn of the loop, by its writes: at most one, that of the sheet. *)
Lemma process_sheet_writes sheet_name loaded0 skipped0 st st' r last :
  body sheet_name (loaded0, skipped0) st = (st', r) ->
  exists evs,
    trace st' = trace st ++ evs /\
    last_read last evs = Some sheet_name /\
    db st' = apply_writes w (writes_by_sheet last evs) (db st) /\
    Forall (sheet_write U w xlsx_file table_prefix [sheet_name]) (writes_by_sheet last evs) /\
    match r with
    | inr (loaded, skipped) =>
        exists new,
          loaded = loaded0 ++ new /\
          List.map write_of_entry new = writes_by_sheet last evs /\
          (forall df,
             read_excel w xlsx_file sheet_name = inr df -> df_empty df = false ->
             (forall tables, execute_error w tables (table_of sheet_name) df = None) ->
             writes_by_sheet last evs = [(Some sheet_name, table_of sheet_name, df)])
    | inl _ => True
    end.
Proof.
  rewrite process_sheet_spec. unfold sheet_outcome_in, reading_events.
  destruct (read_excel w xlsx_file sheet_name) as [msg|df] eqn:Hread;
    [|destruct (df_empty df) eqn:Hempty;
      [|destruct (execute_error w (db st) _ df) as [msg|] eqn:Hexec]];
    try destruct skip_errors; intros Heq; apply pair_equal_spec in Heq as [<- <-];
    cbn [db trace add_events]; (eexists; split; [reflexivity|]).
  all: rewrite ?writes_by_sheet_app, ?last_read_app.
  all: destruct verbose; cbn [app writes_by_sheet last_read apply_writes fold_left].
  all: split; [reflexivity|]; split; [reflexivity|].
  all: split;
    [first [now constructor
           |constructor; [|constructor]; exists sheet_name;
            split; [reflexivity|]; split; [now left|]; now repeat split]|].
  all: try exact I.
  all: try (exists []; rewrite app_nil_r; split; [reflexivity|]; split; [reflexivity|];
            intros df' Hread' Hempty' Hexec'; congruence).
  all: exists [(sheet_name, table_of sheet_name, df_rows df, df_columns df)].
  all: split; [reflexivity|]; split; [cbn; now destruct df|].
  all: intros df' Hread' _ _; congruence.
Qed.

(** The loop over the sheets, by its writes. *)
Lemma sheets_loop_writes names loaded0 skipped0 st st' r last :
  for_each names body (loaded0, skipped0) st = (st', r) ->
  exists evs,
    trace st' = trace st ++ evs /\
    db st' = apply_writes w (writes_by_sheet last evs) (db st) /\
    Forall (sheet_write U w xlsx_file table_prefix names) (writes_by_sheet last evs) /\
    match r with
    | inr (loaded, skipped) =>
        exists new,
          loaded = loaded0 ++ new /\
          List.map write_of_entry new = writes_by_sheet last evs /\
          (forall sheet_name df,
             In sheet_name names ->
             read_excel w xlsx_file sheet_name = inr df -> df_empty df = false ->
             (forall tables, execute_error w tables (table_of sheet_name) df = None) ->
             In (Some sheet_name, table_of sheet_name, df) (writes_by_sheet last evs))
    | inl _ => True
    end.
Proof.
  revert loaded0 skipped0 st last.
  induction names as [|n names IH]; intros loaded0 skipped0 st last; cbn [for_each].
  - intros Heq. apply pair_equal_spec in Heq as [<- <-].
    exists []. rewrite app_nil_r. split; [reflexivity|]. split; [reflexivity|].
    split; [constructor|]. exists []. rewrite app_nil_r.
    split; [reflexivity|]. split; [reflexivity|]. intros s df [ ].
  - run_steps.
    destruct (body n (loaded0, skipped0) st) as [st1 [e|[l1 s1]]] eqn:Hstep;
      apply (process_sheet_writes _ _ _ _ _ _ last) in Hstep
        as (evs1 & Htr1 & Hlast1 & Hdb1 & Hws1 & Hres1).
    + intros Heq. apply pair_equal_spec in Heq as [<- <-].
      exists evs1. split; [assumption|]. split; [assumption|]. split; [|exact I].
      eapply Forall_impl; [exact Hws1|]. intros wr. apply sheet_write_incl.
      intros s [<- | [ ]]. now left.
    + intros Hrest. apply (IH _ _ _ (Some n)) in Hrest
        as (evs2 & Htr2 & Hdb2 & Hws2 & Hres2).
      exists (evs1 ++ evs2). rewrite writes_by_sheet_app, Hlast1.
      split; [rewrite Htr2, Htr1; now rewrite app_assoc|].
      split; [rewrite apply_writes_app, <- Hdb1; exact Hdb2|].
      split.
      { apply Forall_app. split.
        - eapply Forall_impl; [exact Hws1|]. intros wr. apply sheet_write_incl.
          intros s [<- | [ ]]. now left.
        - eapply Forall_impl; [exact Hws2|]. intros wr. apply sheet_write_incl.
          intros s Hs. now right. }
      destruct r as [e|[loaded skipped]]; [exact I|].
      destruct Hres1 as (new1 & -> & Hmap1 & Hload1).
      destruct Hres2 as (new2 & -> & Hmap2 & Hload2).
      exists (new1 ++ new2). split; [now rewrite app_assoc|].
      split; [now rewrite List.map_app, Hmap1, Hmap2|].
      intros s df [<- | Hin] Hread Hempty Hexec; apply in_or_app.
      * left. rewrite (Hload1 df Hread Hempty Hexec). now left.
      * right. now apply Hload2.
Qed.

(** A run, by its writes: each is the write of a sheet of the workbook,
    read just before, under its table name; the database is the one before
    with the writes applied; the summary lists the writes; and in a run that
    returns every sheet that can be loaded is written. *)
Lemma load_xlsx_writes st st' r :
  load_xlsx U w xlsx_file duckdb_file table_prefix skip_errors verbose st = (st', r) ->
  exists evs,
    trace st' = trace st ++ evs /\
    db st' = apply_writes w (writes_by_sheet None evs) (db st) /\
    Forall (fun wr => exists names,
                        sheet_names_of w xlsx_file = inr names /\
                        sheet_write U w xlsx_file table_prefix names wr)
      (writes_by_sheet None evs) /\
    (forall x d loaded skipped,
       In (EvEcho false (MsgSummary x d loaded skipped)) evs ->
       List.map write_of_entry loaded = writes_by_sheet None evs) /\
    (r = inr tt ->
     forall names sheet_name df,
       sheet_names_of w xlsx_file = inr names -> In sheet_name names ->
       read_excel w xlsx_file sheet_name = inr df -> df_empty df = false ->
       (forall tables, execute_error w tables (table_of sheet_name) df = None) ->
       In (Some sheet_name, table_of sheet_name, df) (writes_by_sheet None evs)).
Proof.
  assert (Hearly : forall evs r0,
            Forall opening_event evs ->
            (st', r) = (add_events evs st, inl r0) ->
            exists evs,
              trace st' = trace st ++ evs /\
              db st' = apply_writes w (writes_by_sheet None evs) (db st) /\
              Forall (fun wr => exists names,
                                  sheet_names_of w xlsx_file = inr names /\
                                  sheet_write U w xlsx_file table_prefix names wr)
                (writes_by_sheet None evs) /\
              (forall x d loaded skipped,
                 In (EvEcho false (MsgSummary x d loaded skipped)) evs ->
                 List.map write_of_entry loaded = writes_by_sheet None evs) /\
              (r = inr tt ->
               forall names sheet_name df,
                 sheet_names_of w xlsx_file = inr names -> In sheet_name names ->
                 read_excel w xlsx_file sheet_name = inr df -> df_empty df = false ->
                 (forall tables,
                    execute_error w tables (table_of sheet_name) df = None) ->
                 In (Some sheet_name, table_of sheet_name, df)
                   (writes_by_sheet None evs))).
  { intros evs r0 Hevs Heq. apply pair_equal_spec in Heq as [-> ->].
    assert (Hnone : writes_by_sheet None evs = []).
    { clear -Hevs. generalize (@None str).
      induction Hevs as [|ev evs Hev _ IH]; intros last; [reflexivity|].
      destruct ev; try destruct Hev; cbn [writes_by_sheet]; apply IH. }
    exists evs. rewrite Hnone. split; [reflexivity|]. split; [reflexivity|].
    split; [constructor|]. split; [|discriminate].
    intros x d loaded skipped Hin. rewrite List.Forall_forall in Hevs.
    apply Hevs in Hin. destruct Hin. }
  destruct (path_exists w xlsx_file) eqn:Hexists.
  2:{ rewrite load_xlsx_not_found by assumption. intros Heq. symmetry in Heq.
      eapply Hearly; [|exact Heq]. repeat constructor. }
  destruct (mkdir_error w duckdb_file) as [msg|] eqn:Hmkdir.
  { rewrite (load_xlsx_mkdir_fails U w _ _ _ _ _ msg) by assumption.
    intros Heq. symmetry in Heq. eapply Hearly; [|exact Heq]. repeat constructor. }
  destruct (sheet_names_of w xlsx_file) as [msg|names] eqn:Hnames.
  { rewrite (load_xlsx_workbook_fails U w _ _ _ _ _ msg) by assumption.
    intros Heq. symmetry in Heq. eapply Hearly; [|exact Heq].
    destruct verbose; repeat constructor. }
  destruct (connect_error w duckdb_file) as [msg|] eqn:Hconnect.
  { rewrite (load_xlsx_connect_fails U w _ _ _ _ _ names msg) by assumption.
    intros Heq. symmetry in Heq. eapply Hearly; [|exact Heq].
    destruct verbose; repeat constructor. }
  clear Hearly. rewrite (load_xlsx_run U w _ _ _ _ _ names st) by assumption.
  destruct (opening_events_writes xlsx_file duckdb_file verbose names None)
    as [Hopen_writes Hopen_last].
  assert (Hopen : Forall opening_event
                    (opening_events xlsx_file duckdb_file verbose names))
    by (unfold opening_events; destruct verbose; repeat constructor).
  rewrite List.Forall_forall in Hopen.
  destruct (for_each names _ _ _) as [st1 [e|[loaded skipped]]] eqn:Hloop;
    pose proof Hloop as Hinv;
    apply sheets_loop_inv in Hinv as (_ & (evs0 & Htrace0 & Hevs) & _);
    apply (sheets_loop_writes _ _ _ _ _ _ None) in Hloop
      as (evs & Htrace & Hdb & Hws & Hres);
    assert (evs0 = evs) as -> by (rewrite Htrace in Htrace0; now apply app_inv_head in Htrace0);
    clear Htrace0; cbn [trace db loop_start] in Htrace, Hdb;
    rewrite List.Forall_forall in Hevs;
    intros Heq; apply pair_equal_spec in Heq as [<- <-];
    cbn [trace add_events db]; rewrite Htrace, <- !app_assoc;
    (eexists; split; [reflexivity|]);
    rewrite !writes_by_sheet_app, Hopen_writes, Hopen_last;
    cbn [writes_by_sheet app]; rewrite app_nil_r.
  - split; [assumption|]. split.
    { eapply Forall_impl; [exact Hws|]. intros wr Hwr. now exists names. }
    split; [|discriminate].
    intros x d loaded skipped Hin. rewrite !in_app_iff in Hin.
    destruct Hin as [Hin|[Hin|Hin]].
    + apply Hopen in Hin. destruct Hin.
    + apply Hevs in Hin. destruct Hin.
    + cbn in Hin. intuition discriminate.
  - destruct Hres as (new & Hnew & Hmap & Hloads). cbn [app] in Hnew. subst new.
    split; [assumption|]. split.
    { eapply Forall_impl; [exact Hws|]. intros wr Hwr. now exists names. }
    split.
    + intros x d loaded' skipped' Hin. rewrite !in_app_iff in Hin.
      destruct Hin as [Hin|[Hin|Hin]].
      * apply Hopen in Hin. destruct Hin.
      * apply Hevs in Hin. destruct Hin.
      * cbn in Hin. destruct Hin as [Hin|[Hin|[ ]]]; [discriminate|].
        injection Hin as _ _ <- _. exact Hmap.
    + intros _ names' s df Hnames' Hin. assert (names' = names) as -> by congruence.
      now apply Hloads.
Qed.

(** The tables a run writes and the entries of its summary carry the table
    names of the specification, each for the sheet it was read from, and a
    run that returns has written every sheet that can be loaded. *)
Lemma load_xlsx_events st st' r :
  load_xlsx U w xlsx_file duckdb_file table_prefix skip_errors verbose st = (st', r) ->
  exists evs,
    trace st' = trace st ++ evs /\
    Forall (fun wr => exists names,
                        sheet_names_of w xlsx_file = inr names /\
                        sheet_write U w xlsx_file table_prefix names wr)
      (writes_by_sheet None evs) /\
    (forall table_name df,
       In (EvExecute table_name df) evs ->
       exists sheet_name,
         read_excel w xlsx_file sheet_name = inr df /\
         table_name = expected_table_name U table_prefix sheet_name) /\
    (forall x d loaded skipped,
       In (EvEcho false (MsgSummary x d loaded skipped)) evs ->
       List.map write_of_entry loaded = writes_by_sheet None evs /\
       Forall (fun e : loaded_entry =>
                 let '(sheet_name, table_name, _, _) := e in
                 table_name = expected_table_name U table_prefix sheet_name /\
                 is_Some (db st' !! table_key w table_name)) loaded) /\
    (r = inr tt ->
     forall names sheet_name df,
       sheet_names_of w xlsx_file = inr names -> In sheet_name names ->
       read_excel w xlsx_file sheet_name = inr df -> df_empty df = false ->
       (forall tables, execute_error w tables (table_of sheet_name) df = None) ->
       In (Some sheet_name, table_of sheet_name, df) (writes_by_sheet None evs) /\
       In (EvExecute (table_of sheet_name) df) evs /\
       is_Some (db st' !! table_key w (table_of sheet_name))).
Proof.
  intros Hrun. apply load_xlsx_writes in Hrun as (evs & Htrace & Hdb & Hws & Hsum & Hloads).
  exists evs. split; [assumption|]. split; [assumption|].
  rewrite List.Forall_forall in Hws. split; [|split].
  - intros t df Hin. apply (writes_by_sheet_executes None) in Hin as [sheet Hin].
    apply Hws in Hin as (names & _ & s & _ & _ & Hread & _ & ->). now exists s.
  - intros x d loaded skipped Hin. specialize (Hsum x d loaded skipped Hin).
    split; [assumption|]. apply List.Forall_forall. intros [[[s t] rows] cols] He.
    assert (Hwr : In (write_of_entry (s, t, rows, cols)) (writes_by_sheet None evs))
      by (rewrite <- Hsum; now apply List.in_map).
    cbn [write_of_entry] in Hwr. split.
    + apply Hws in Hwr as (names & _ & s' & [= <-] & _ & _ & _ & ->). reflexivity.
    + rewrite Hdb. eapply apply_writes_is_Some. exact Hwr.
  - intros Hr names s df Hnames Hin Hread Hempty Hexec.
    pose proof (Hloads Hr names s df Hnames Hin Hread Hempty Hexec) as Hwr.
    split; [assumption|]. split.
    + apply (writes_by_sheet_executes None). eauto.
    + rewrite Hdb. eapply apply_writes_is_Some. exact Hwr.
Qed.

End TableNames.

(** C7: each table a run writes is written right after the read of a sheet
    of the workbook, holds the frame read from that sheet, and is named by
    the sanitized sheet name, after the prefix and an underscore when the
    prefix is not empty; the summary lists these writes with the same names;
    and a run that returns has written, under that name, every sheet whose
    read gives a frame that is not empty and whose write does not fail. *)
Theorem loaded_sheet_table_name U w xlsx_file duckdb_file table_prefix skip_errors verbose
    st st' r :
  load_xlsx U w xlsx_file duckdb_file table_prefix skip_errors verbose st = (st', r) ->
  (forall sheet_name,
     expected_table_name U [] sheet_name = sanitize_table_name U sheet_name /\
     (table_prefix <> [] ->
      expected_table_name U table_prefix sheet_name
      = table_prefix ++ [UNDERSCORE] ++ sanitize_table_name U sheet_name)) /\
  exists evs,
    trace st' = trace st ++ evs /\
    Forall (fun wr => exists names,
                        sheet_names_of w xlsx_file = inr names /\
                        sheet_write U w xlsx_file table_prefix names wr)
      (writes_by_sheet None evs) /\
    (forall table_name df,
       In (EvExecute table_name df) evs ->
       exists sheet_name,
         read_excel w xlsx_file sheet_name = inr df /\
         table_name = expected_table_name U table_prefix sheet_name) /\
    (forall x d loaded skipped,
       In (EvEcho false (MsgSummary x d loaded skipped)) evs ->
       List.map write_of_entry loaded = writes_by_sheet None evs /\
       Forall (fun e : loaded_entry =>
                 let '(sheet_name, table_name, _, _) := e in
                 table_name = expected_table_name U table_prefix sheet_name /\
                 is_Some (db st' !! table_key w table_name)) loaded) /\
    (r = inr tt ->
     forall names sheet_name df,
       sheet_names_of w xlsx_file = inr names -> In sheet_name names ->
       read_excel w xlsx_file sheet_name = inr df -> df_empty df = false ->
       (forall tables,
          execute_error w tables (expected_table_name U table_prefix sheet_name) df
          = None) ->
       In (Some sheet_name, expected_table_name U table_prefix sheet_name, df)
         (writes_by_sheet None evs) /\
       In (EvExecute (expected_table_name U table_prefix sheet_name) df) evs /\
       is_Some (db st' !! table_key w (expected_table_name U table_prefix sheet_name))).
Proof.
  intros Hrun. split.
  - intros sheet_name. split; [reflexivity|].
    destruct table_prefix; [congruence|reflexivity].
  - eapply load_xlsx_events. exact Hrun.
Qed.

Lemma loaded_sheet_table_name_witness :
  exists st' evs,
    load_xlsx ucd_excerpt quarter_world (lit "book.xlsx") (lit "out.duckdb") (lit "Q1")
      true false initial_state = (st', inr tt) /\
    trace st' = trace initial_state ++ evs /\
    In (Some (lit "Data 1"), lit "Q1_data_1", {| df_rows := 3; df_columns := 2 |})
      (writes_by_sheet None evs) /\
    In (EvExecute (lit "Q1_data_1") {| df_rows := 3; df_columns := 2 |}) evs /\
    is_Some (db st' !! ascii_fold (lit "Q1_data_1")).
Proof.
  destruct (loaded_sheet_table_name ucd_excerpt quarter_world (lit "book.xlsx")
              (lit "out.duckdb") (lit "Q1") true false initial_state _ _ eq_refl)
    as (_ & evs & Htrace & _ & _ & _ & Hloads).
  eexists. exists evs. split; [reflexivity|]. split; [exact Htrace|].
  apply (Hloads eq_refl [lit "Data 1"; lit "Empty"; lit "Notes-2024"] (lit "Data 1")
           {| df_rows := 3; df_columns := 2 |} eq_refl (or_introl eq_refl) eq_refl eq_refl
           (fun _ => eq_refl)).
Defined.

(** ** Directory Batcher *)

(** The stem of a name with an extension is the name without it. *)
Lemma rfind_absent c s : ~ In c s -> rfind c s = None.
Proof.
  induction s as [|d s IH]; [reflexivity|]. cbn [rfind In]. intros Hnot.
  rewrite IH by tauto. destruct (N.eqb_spec d c); [tauto|reflexivity].
Qed.

Lemma rfind_last c base ext :
  ~ In c ext -> rfind c (base ++ c :: ext) = Some (length base).
Proof.
  intros Hnot. induction base as [|d base IH]; cbn [app rfind length].
  - now rewrite rfind_absent, N.eqb_refl.
  - now rewrite IH.
Qed.

Lemma stem_extension base ext :
  base <> [] -> ext <> [] -> ~ In PERIOD ext ->
  stem (base ++ PERIOD :: ext) = base.
Proof.
  intros Hbase Hext Hnot. unfold stem. rewrite rfind_last by assumption.
  destruct base as [|b base]; [congruence|]. destruct ext as [|e ext]; [congruence|].
  replace ((0 <? length (b :: base)) && _)%nat with true.
  - now rewrite take_app_length.
  - symmetry. apply andb_true_iff. split.
    + apply Nat.ltb_lt. cbn. lia.
    + apply Nat.ltb_lt. rewrite length_app. cbn. lia.
Qed.

Lemma stem_no_extension name : ~ In PERIOD name -> stem name = name.
Proof. intros Hnot. unfold stem. now rewrite rfind_absent. Qed.

(** With the skip-errors flag on, a run whose workbook and connection open
    returns. *)
Lemma load_xlsx_skip_returns U w xlsx_file duckdb_file table_prefix verbose names st :
  path_exists w xlsx_file = true ->
  mkdir_error w duckdb_file = None ->
  sheet_names_of w xlsx_file = inr names ->
  connect_error w duckdb_file = None ->
  exists st', load_xlsx U w xlsx_file duckdb_file table_prefix true verbose st = (st', inr tt).
Proof.
  intros Hexists Hmkdir Hnames Hconnect.
  rewrite (load_xlsx_run U w _ _ _ _ _ names st) by assumption.
  destruct (sheets_loop_skip_total U w xlsx_file table_prefix verbose names ([], [])
              (loop_start xlsx_file duckdb_file verbose names st))
    as (st1 & [loaded skipped] & ->).
  now eexists.
Qed.

Section BatchFacts.
Context (U : unicode_tables) (w : world).
Context (duckdb_file : str) (skip_errors verbose : bool).

Local Abbreviation table_in xlsx_file sheet_name :=
  (expected_table_name U (derive_prefix U (path_name xlsx_file)) sheet_name).

Local Abbreviation named_by files evs :=
  (forall table_name df,
     In (EvExecute table_name df) evs ->
     exists (xlsx_file : path) sheet_name,
       In xlsx_file files /\
       read_excel w (path_str xlsx_file) sheet_name = inr df /\
       table_name = table_in xlsx_file sheet_name).

(** Every sheet of the files [files] that can be loaded has its table, with
    the prefix of its file, written among [evs] and present in [d]. *)
Local Abbreviation loaded_by files evs d :=
  (forall (xlsx_file : path) names sheet_name df,
     In xlsx_file files ->
     path_exists w (path_str xlsx_file) = true ->
     mkdir_error w duckdb_file = None ->
     sheet_names_of w (path_str xlsx_file) = inr names ->
     connect_error w duckdb_file = None ->
     In sheet_name names ->
     read_excel w (path_str xlsx_file) sheet_name = inr df ->
     df_empty df = false ->
     (forall tables, execute_error w tables (table_in xlsx_file sheet_name) df = None) ->
     In (EvExecute (table_in xlsx_file sheet_name) df) evs /\
     is_Some (d !! table_key w (table_in xlsx_file sheet_name))).

(** The tables written for a file carry the prefix derived from its name,
    and when the loop body returns every sheet of the file that can be
    loaded is written. *)
Lemma process_file_events xlsx_file st st' r :
  process_file U w duckdb_file skip_errors verbose xlsx_file tt st = (st', r) ->
  exists evs,
    trace st' = trace st ++ evs /\ named_by [xlsx_file] evs /\
    (forall t, is_Some (db st !! t) -> is_Some (db st' !! t)) /\
    (r = inr tt -> loaded_by [xlsx_file] evs (db st')).
Proof.
  unfold process_file. run_steps.
  destruct (load_xlsx U w _ _ _ _ _ _) as [st1 [e|[]]] eqn:Hrun;
    pose proof Hrun as Hcall; pose proof Hrun as Hwrites;
    apply load_xlsx_writes in Hwrites as (evs0 & Htrace0 & Hdb & _);
    apply load_xlsx_events in Hrun as (evs & Htrace & _ & Hexec & _ & Hloads);
    assert (evs0 = evs) as ->
      by (rewrite Htrace in Htrace0; now apply app_inv_head in Htrace0);
    clear Htrace0; cbn [trace add_events db] in Htrace, Hdb;
    assert (Hnamed : forall evs',
              (forall t df, ~ In (EvExecute t df) evs') ->
              named_by [xlsx_file]
                ([EvEcho false (MsgProcessingFile (path_name xlsx_file))] ++ evs ++ evs')).
  1, 3: intros evs' Hnot t df Hin; rewrite !in_app_iff in Hin; cbn [In] in Hin;
    destruct Hin as [[Hin|[ ]]|[Hin|Hin]]; [discriminate| |now apply Hnot in Hin];
    apply Hexec in Hin as (sheet & Hread & ->);
    exists xlsx_file, sheet; (split; [now left|]); now split.
  - destruct skip_errors eqn:Hskip; intros Heq; apply pair_equal_spec in Heq as [<- <-];
      cbn [trace add_events db]; rewrite Htrace, <- ?app_assoc;
      (eexists; split; [reflexivity|]).
    + split; [apply Hnamed; intros t df [Hin|[ ]]; discriminate|].
      split; [intros t; rewrite Hdb; apply apply_writes_mono|].
      intros _ f names s df [<- | [ ]] Hexists Hmkdir Hnames Hconnect.
      destruct (load_xlsx_skip_returns U w (path_str xlsx_file) duckdb_file
                  (derive_prefix U (path_name xlsx_file)) verbose names
                  (add_events [EvEcho false (MsgProcessingFile (path_name xlsx_file))] st)
                  Hexists Hmkdir Hnames Hconnect) as (st2 & Hret).
      rewrite Hret in Hcall. discriminate.
    + split; [rewrite <- (app_nil_r evs); apply Hnamed; intros t df [ ]|].
      split; [intros t; rewrite Hdb; apply apply_writes_mono|]. discriminate.
  - intros Heq; apply pair_equal_spec in Heq as [<- <-].
    rewrite Htrace, <- ?app_assoc. eexists; split; [reflexivity|].
    split; [rewrite <- (app_nil_r evs); apply Hnamed; intros t df [ ]|].
    split; [intros t; rewrite Hdb; apply apply_writes_mono|].
    intros _ f names s df [<- | [ ]] Hexists Hmkdir Hnames Hconnect Hin Hread Hempty Hexec'.
    destruct (Hloads eq_refl names s df Hnames Hin Hread Hempty Hexec')
      as (_ & Hev & Hsome).
    split; [|exact Hsome]. apply in_or_app. right. exact Hev.
Qed.

Lemma files_loop_events files st st' r :
  for_each files (process_file U w duckdb_file skip_errors verbose) tt st = (st', r) ->
  exists evs,
    trace st' = trace st ++ evs /\ named_by files evs /\
    (forall t, is_Some (db st !! t) -> is_Some (db st' !! t)) /\
    (r = inr tt -> loaded_by files evs (db st')).
Proof.
  revert st. induction files as [|f files IH]; intros st; cbn [for_each].
  - intros Heq. apply pair_equal_spec in Heq as [<- <-].
    exists []. split; [now rewrite app_nil_r|]. split; [intros t df [ ]|].
    split; [auto|]. intros _ x names s df [ ].
  - run_steps.
    destruct (process_file U w _ _ _ f tt st) as [st1 [e|[]]] eqn:Hfile;
      apply process_file_events in Hfile as (evs1 & Htrace1 & Hnamed1 & Hmono1 & Hloads1).
    + intros Heq. apply pair_equal_spec in Heq as [<- <-].
      exists evs1. split; [assumption|]. split; [|split; [assumption|discriminate]].
      intros t df Hin. destruct (Hnamed1 t df Hin) as (x & sheet & Hx & Hread & ->).
      exists x, sheet. split; [|now split]. destruct Hx as [Hx|[ ]]. now left.
    + intros Hrest. apply IH in Hrest as (evs2 & Htrace2 & Hnamed2 & Hmono2 & Hloads2).
      exists (evs1 ++ evs2). split; [now rewrite Htrace2, Htrace1, app_assoc|].
      split; [|split; [auto|]].
      * intros t df Hin. apply in_app_iff in Hin as [Hin|Hin].
        -- destruct (Hnamed1 t df Hin) as (x & sheet & Hx & Hread & ->).
           exists x, sheet. split; [|now split]. destruct Hx as [Hx|[ ]]. now left.
        -- destruct (Hnamed2 t df Hin) as (x & sheet & Hx & Hread & ->).
           exists x, sheet. split; [now right|now split].
      * intros Hr x names s df [<- | Hx] Hexists Hmkdir Hnames Hconnect Hin Hread Hempty
          Hexec.
        -- destruct (Hloads1 eq_refl f names s df (or_introl eq_refl) Hexists Hmkdir Hnames
                       Hconnect Hin Hread Hempty Hexec) as [Hev Hsome].
           split; [apply in_or_app; now left|auto].
        -- destruct (Hloads2 Hr x names s df Hx Hexists Hmkdir Hnames Hconnect Hin Hread
                       Hempty Hexec) as [Hev Hsome].
           split; [apply in_or_app; now right|assumption].
Qed.

Lemma load_all_xlsx_events input_dir file_pattern st st' r :
  load_all_xlsx U w input_dir duckdb_file file_pattern skip_errors verbose st = (st', r) ->
  exists evs,
    trace st' = trace st ++ evs /\
    (forall table_name df,
       In (EvExecute table_name df) evs ->
       exists files (xlsx_file : path) sheet_name,
         glob w input_dir file_pattern = inr files /\
         In xlsx_file files /\
         read_excel w (path_str xlsx_file) sheet_name = inr df /\
         table_name = table_in xlsx_file sheet_name) /\
    (r = inr tt ->
     forall files, glob w input_dir file_pattern = inr files -> loaded_by files evs (db st')).
Proof.
  unfold load_all_xlsx. destruct (path_exists w input_dir); cbn [negb]; run_steps.
  - destruct (glob w input_dir file_pattern) as [msg|[|f files]] eqn:Hglob.
    + intros Heq. apply pair_equal_spec in Heq as [<- <-].
      exists []. split; [now rewrite app_nil_r|]. split; [intros t df [ ]|discriminate].
    + intros Heq. apply pair_equal_spec in Heq as [<- <-].
      eexists. split; [reflexivity|]. split; [intros t df [Hin|[ ]]; discriminate|].
      intros _ files [= <-] x names s df [ ].
    + intros Hloop.
      apply files_loop_events in Hloop as (evs & Htrace & Hnamed & _ & Hloads).
      cbn [trace add_events] in Htrace. rewrite <- app_assoc in Htrace.
      eexists. split; [exact Htrace|]. split.
      * intros t df [Hin|Hin]; [discriminate|].
        destruct (Hnamed t df Hin) as (x & sheet & Hx & Hread & ->).
        exists (f :: files), x, sheet. now repeat split.
      * intros Hr files' [= <-] x names s df Hx Hexists Hmkdir Hnames Hconnect Hin Hread
          Hempty Hexec.
        destruct (Hloads Hr x names s df Hx Hexists Hmkdir Hnames Hconnect Hin Hread
                    Hempty Hexec) as [Hev Hsome].
        split; [now right|assumption].
  - intros Heq. apply pair_equal_spec in Heq as [<- <-].
    eexists. split; [reflexivity|]. split; [intros t df [Hin|[ ]]; discriminate|].
    discriminate.
Qed.

End BatchFacts.

(** C8, as the code has it: the prefix derived for a file is the stem of its
    name, with the timestamps deleted as a scan from the left finds them (a
    match is left out whole and the scan goes on after it) and the spaces and
    hyphens then replaced by underscores; every table a batch run writes is
    that of a sheet of a matched file and carries the prefix of that file;
    a batch that returns has written, with the prefix of its file, every
    sheet of every matched file that can be loaded;
    [sales_20250919_085132.xlsx] gives the prefix [sales], and its sheet
    [Totals] the table [sales_totals]. *)
Theorem batch_table_prefix U w input_dir duckdb_file file_pattern skip_errors verbose
    st st' r :
  load_all_xlsx U w input_dir duckdb_file file_pattern skip_errors verbose st = (st', r) ->
  (forall name, exists stripped,
     timestamps_deleted U (stem name) stripped /\
     derive_prefix U name
     = List.map (fun c => if (c =? SPACE) || (c =? HYPHEN) then UNDERSCORE else c)
         stripped) /\
  (exists evs,
     trace st' = trace st ++ evs /\
     (forall table_name df,
        In (EvExecute table_name df) evs ->
        exists files (xlsx_file : path) sheet_name,
          glob w input_dir file_pattern = inr files /\
          In xlsx_file files /\
          read_excel w (path_str xlsx_file) sheet_name = inr df /\
          table_name
          = expected_table_name U (derive_prefix U (path_name xlsx_file)) sheet_name) /\
     (r = inr tt ->
      forall files (xlsx_file : path) names sheet_name df,
        glob w input_dir file_pattern = inr files ->
        In xlsx_file files ->
        path_exists w (path_str xlsx_file) = true ->
        mkdir_error w duckdb_file = None ->
        sheet_names_of w (path_str xlsx_file) = inr names ->
        connect_error w duckdb_file = None ->
        In sheet_name names ->
        read_excel w (path_str xlsx_file) sheet_name = inr df ->
        df_empty df = false ->
        (forall tables,
           execute_error w tables
             (expected_table_name U (derive_prefix U (path_name xlsx_file)) sheet_name) df
           = None) ->
        In (EvExecute
              (expected_table_name U (derive_prefix U (path_name xlsx_file)) sheet_name) df)
          evs /\
        is_Some
          (db st' !! table_key w
             (expected_table_name U (derive_prefix U (path_name xlsx_file)) sheet_name)))) /\
  derive_prefix U (lit "sales_20250919_085132.xlsx") = lit "sales" /\
  expected_table_name U (derive_prefix U (lit "sales_20250919_085132.xlsx")) (lit "Totals")
  = lit "sales_totals".
Proof.
  intros Hrun. split; [|split; [|split; reflexivity]].
  - intros name. exists (re_sub_timestamp U (stem name)). split.
    + apply re_sub_timestamp_deleted.
    + unfold derive_prefix, replace. rewrite List.map_map. apply List.map_ext.
      intros c. unfold_chars. nbool.
  - apply load_all_xlsx_events in Hrun as (evs & Htrace & Hnamed & Hloads).
    exists evs. split; [assumption|]. split; [assumption|].
    intros Hr files x names s df Hglob. now apply Hloads.
Qed.

Lemma batch_table_prefix_witness :
  exists st' evs,
    load_all_xlsx ucd_excerpt sales_world (lit "in") (lit "out.duckdb") (lit "*.xlsx")
      true false initial_state = (st', inr tt) /\
    trace st' = trace initial_state ++ evs /\
    In (EvExecute (lit "sales_totals") {| df_rows := 3; df_columns := 2 |}) evs /\
    is_Some (db st' !! lit "sales_totals").
Proof.
  destruct (batch_table_prefix ucd_excerpt sales_world (lit "in") (lit "out.duckdb")
              (lit "*.xlsx") true false initial_state _ _ eq_refl)
    as (_ & (evs & Htrace & _ & Hloads) & _).
  eexists. exists evs. split; [reflexivity|]. split; [exact Htrace|].
  apply (Hloads eq_refl
           [ {| path_str := lit "in/sales_20250919_085132.xlsx";
                path_name := lit "sales_20250919_085132.xlsx" |} ]
           {| path_str := lit "in/sales_20250919_085132.xlsx";
              path_name := lit "sales_20250919_085132.xlsx" |}
           [lit "Totals"] (lit "Totals") {| df_rows := 3; df_columns := 2 |}
           eq_refl (or_introl eq_refl) eq_refl eq_refl eq_refl eq_refl (or_introl eq_refl)
           eq_refl eq_refl (fun _ => eq_refl)).
Defined.

(** C8 as the claim words it fails: of the two timestamps that overlap in
    [_12345678_20250919_085132] the scan deletes the first only, so the
    second is not deleted and [19_085132] is left, where deleting every
    embedded timestamp leaves nothing; and the deletion can bring a
    timestamp about, which then stays. *)
Lemma overlapping_timestamp_survives :
  match_timestamp ucd_excerpt (drop 9 (stem (lit "_12345678_20250919_085132.xlsx"))) = true /\
  every_timestamp_deleted ucd_excerpt (stem (lit "_12345678_20250919_085132.xlsx")) = [] /\
  derive_prefix ucd_excerpt (lit "_12345678_20250919_085132.xlsx") = lit "19_085132" /\
  derive_prefix ucd_excerpt (lit "_12345678_20250919_085132.xlsx")
  <> replace HYPHEN UNDERSCORE
       (replace SPACE UNDERSCORE
          (every_timestamp_deleted ucd_excerpt
             (stem (lit "_12345678_20250919_085132.xlsx")))) /\
  derive_prefix ucd_excerpt (lit "a_1234_20250919_0851325678_123456.xlsx")
  = lit "a_12345678_123456" /\
  match_timestamp ucd_excerpt
    (drop 1 (derive_prefix ucd_excerpt (lit "a_1234_20250919_0851325678_123456.xlsx")))
  = true.
Proof.
  split; [reflexivity|]. split; [reflexivity|]. split; [reflexivity|].
  split; [discriminate|]. split; reflexivity.
Qed.

(** ** The examples of the specification *)

Example sanitize_data_1 U : sanitize_table_name U (lit "Data 1") = lit "data_1".
Proof. reflexivity. Qed.

Example sanitize_notes U : sanitize_table_name U (lit "Notes-2024") = lit "notes_2024".
Proof. reflexivity. Qed.

Example sanitize_digit_first U :
  sanitize_table_name U (lit "2024 Q1.x") = lit "sheet_2024_q1_x".
Proof. reflexivity. Qed.

Example sanitize_empty U : sanitize_table_name U [] = [].
Proof. reflexivity. Qed.

(** The three-sheet workbook without a prefix: two tables, and the empty
    sheet in the list of the skipped ones. *)
Example quarter_no_prefix U :
  let run := load_xlsx U quarter_world (lit "book.xlsx") (lit "out.duckdb") [] true false
               initial_state in
  snd run = inr tt /\
  db (fst run) !! lit "data_1" = Some {| df_rows := 3; df_columns := 2 |} /\
  db (fst run) !! lit "notes_2024" = Some {| df_rows := 5; df_columns := 4 |} /\
  In (EvEcho false
        (MsgSummary (lit "book.xlsx") (lit "out.duckdb")
           [(lit "Data 1", lit "data_1", 3%nat, 2%nat);
            (lit "Notes-2024", lit "notes_2024", 5%nat, 4%nat)]
           [lit "Empty (empty)"]))
     (trace (fst run)).
Proof.
  cbv zeta. split; [reflexivity|]. split; [reflexivity|]. split; [reflexivity|].
  vm_compute. do 9 right. left. reflexivity.
Qed.

Example quarter_prefix_Q1 U :
  let run := load_xlsx U quarter_world (lit "book.xlsx") (lit "out.duckdb") (lit "Q1")
               true false initial_state in
  db (fst run) !! table_key quarter_world (lit "Q1_data_1")
  = Some {| df_rows := 3; df_columns := 2 |} /\
  db (fst run) !! table_key quarter_world (lit "Q1_notes_2024")
  = Some {| df_rows := 5; df_columns := 4 |}.
Proof. cbv zeta. split; reflexivity. Qed.

(** The workbook with the broken second sheet, the skip-errors flag on: the
    third sheet is loaded. *)
Example corrupt_skip U :
  let run := load_xlsx U corrupt_world (lit "book.xlsx") (lit "out.duckdb") [] true false
               initial_state in
  snd run = inr tt /\
  is_Some (db (fst run) !! lit "notes_2024") /\
  open_conns (fst run) = 0%nat.
Proof. cbv zeta. split; [reflexivity|]. split; [eexists|]; reflexivity. Qed.

Example sales_batch U :
  let run := load_all_xlsx U sales_world (lit "in") (lit "out.duckdb") (lit "*.xlsx")
               true false initial_state in
  snd run = inr tt /\
  db (fst run) !! lit "sales_totals" = Some {| df_rows := 3; df_columns := 2 |}.
Proof. cbv zeta. split; reflexivity. Qed.

(** * Further properties *)

(** ** Name Sanitizer *)

(** X1: on an ASCII name, sanitizing a sanitized name changes nothing. *)
Theorem sanitize_idempotent_on_ascii U name :
  forallb is_ascii name = true ->
  sanitize_table_name U (sanitize_table_name U name) = sanitize_table_name U name.
Proof.
  intros Hascii. apply sanitize_fixed.
  - now apply sanitize_ascii_charset.
  - now apply sanitize_ascii_head.
Qed.

Lemma sanitize_idempotent_on_ascii_witness :
  sanitize_table_name ucd_excerpt (sanitize_table_name ucd_excerpt (lit "2024 Q1.x"))
  = sanitize_table_name ucd_excerpt (lit "2024 Q1.x").
Proof. apply (sanitize_idempotent_on_ascii ucd_excerpt (lit "2024 Q1.x")). reflexivity. Defined.

(** X2: on an ASCII name the result is an identifier: lowercase ASCII
    letters, ASCII digits and underscores, the first of which is no digit,
    also when a digit comes first only once the characters before it are
    dropped. *)
Theorem sanitize_ascii_identifier U name :
  forallb is_ascii name = true ->
  forallb ascii_ident_char (sanitize_table_name U name) = true /\
  forall c rest, sanitize_table_name U name = c :: rest -> ascii_isdigit c = false.
Proof.
  intros Hascii. split; [now apply sanitize_ascii_charset|].
  intros c rest Heq. pose proof (sanitize_ascii_head U name Hascii) as Hhead.
  now rewrite Heq in Hhead.
Qed.

Lemma sanitize_ascii_identifier_witness :
  forallb ascii_ident_char (sanitize_table_name ucd_excerpt (lit "#1 Sales")) = true /\
  sanitize_table_name ucd_excerpt (lit "#1 Sales") = lit "sheet_1_sales".
Proof.
  split; [|reflexivity].
  apply (sanitize_ascii_identifier ucd_excerpt (lit "#1 Sales")). reflexivity.
Defined.

(** X3: names that differ only in which of space, hyphen, period and
    underscore stands at a place get the same result. *)
Theorem sanitize_separators_collide U name1 name2 :
  List.map (fun c => if (c =? SPACE) || (c =? HYPHEN) || (c =? PERIOD)
                     then UNDERSCORE else c) name1
  = List.map (fun c => if (c =? SPACE) || (c =? HYPHEN) || (c =? PERIOD)
                       then UNDERSCORE else c) name2 ->
  sanitize_table_name U name1 = sanitize_table_name U name2.
Proof. intros Heq. rewrite !sanitize_unfold, !replaced_map. now rewrite Heq. Qed.

Lemma sanitize_separators_collide_witness :
  sanitize_table_name ucd_excerpt (lit "Q1 2024.v2")
  = sanitize_table_name ucd_excerpt (lit "Q1-2024_v2").
Proof.
  apply (sanitize_separators_collide ucd_excerpt (lit "Q1 2024.v2") (lit "Q1-2024_v2")).
  reflexivity.
Defined.

Lemma ascii_lower_ascii c : is_ascii c = true -> is_ascii (ascii_lower c) = true.
Proof. unfold_chars. nbool. Qed.

Lemma ascii_lower_twice c : ascii_lower (ascii_lower c) = ascii_lower c.
Proof. unfold_chars. nbool. Qed.

Lemma ascii_lower_kept U c :
  is_ascii c = true ->
  (py_isalnum U (ascii_lower c) || (ascii_lower c =? UNDERSCORE))
  = (py_isalnum U c || (c =? UNDERSCORE)).
Proof. unfold_chars. nbool. Qed.

Lemma ascii_lower_replaced c :
  (if (ascii_lower c =? SPACE) || (ascii_lower c =? HYPHEN) || (ascii_lower c =? PERIOD)
   then UNDERSCORE else ascii_lower c)
  = ascii_lower (if (c =? SPACE) || (c =? HYPHEN) || (c =? PERIOD) then UNDERSCORE else c).
Proof. unfold_chars. nbool. Qed.

Lemma ascii_lower_isdigit c : ascii_isdigit (ascii_lower c) = ascii_isdigit c.
Proof. unfold_chars. nbool. Qed.

Lemma replaced_char_ascii c :
  is_ascii c = true ->
  is_ascii (if (c =? SPACE) || (c =? HYPHEN) || (c =? PERIOD) then UNDERSCORE else c) = true.
Proof. unfold_chars. nbool. Qed.

(** The kept characters of a lowered ASCII name are the lowered kept
    characters of the name. *)
Lemma kept_of_lowered U name :
  forallb is_ascii name = true ->
  List.filter (fun c => py_isalnum U c || (c =? UNDERSCORE))
    (List.map (fun c => if (c =? SPACE) || (c =? HYPHEN) || (c =? PERIOD)
                        then UNDERSCORE else c)
       (List.map ascii_lower name))
  = List.map ascii_lower
      (List.filter (fun c => py_isalnum U c || (c =? UNDERSCORE))
         (List.map (fun c => if (c =? SPACE) || (c =? HYPHEN) || (c =? PERIOD)
                             then UNDERSCORE else c) name)).
Proof.
  induction name as [|c name IH]; [reflexivity|]. cbn [forallb List.map List.filter].
  rewrite andb_true_iff. intros [Hc Hname].
  rewrite ascii_lower_replaced, ascii_lower_kept by now apply replaced_char_ascii.
  rewrite IH by assumption. now destruct (py_isalnum U _ || _).
Qed.

(** X4: on ASCII names the case of the letters is lost: a name and the name
    in lowercase get the same result. *)
Theorem sanitize_ascii_case_collides U name :
  forallb is_ascii name = true ->
  sanitize_table_name U (List.map ascii_lower name) = sanitize_table_name U name.
Proof.
  intros Hascii. rewrite !sanitize_unfold, !replaced_map, kept_of_lowered by assumption.
  pose proof (filter_forallb (fun c => py_isalnum U c || (c =? UNDERSCORE)) is_ascii _
                (replaced_ascii _ Hascii)) as Hf.
  rewrite replaced_map in Hf.
  destruct (List.filter _ _) as [|c f]; [reflexivity|].
  cbn [forallb] in Hf. apply andb_true_iff in Hf as [Hc Hf]. cbn [List.map].
  rewrite !py_isdigit_ascii, ascii_lower_isdigit by auto using ascii_lower_ascii.
  assert (Hlow : forall l, forallb is_ascii l = true ->
                           forallb is_ascii (List.map ascii_lower l) = true).
  { induction l as [|d l IH]; [reflexivity|]. cbn [forallb List.map].
    rewrite !andb_true_iff. intros [Hd Hl]. auto using ascii_lower_ascii. }
  assert (Hall : forallb is_ascii (c :: f) = true)
    by (cbn [forallb]; now rewrite Hc, Hf).
  assert (Htwice : forall l : str,
             List.map ascii_lower (List.map ascii_lower l) = List.map ascii_lower l).
  { intros l. rewrite List.map_map. apply List.map_ext. intros d. apply ascii_lower_twice. }
  destruct (ascii_isdigit c).
  - rewrite !lower_ascii.
    + rewrite !List.map_app. f_equal. exact (Htwice (c :: f)).
    + rewrite forallb_app. apply andb_true_iff. split; [reflexivity|exact Hall].
    + rewrite forallb_app. apply andb_true_iff. split; [reflexivity|].
      exact (Hlow (c :: f) Hall).
  - rewrite !lower_ascii by (try exact Hall; exact (Hlow (c :: f) Hall)).
    exact (Htwice (c :: f)).
Qed.

Lemma sanitize_ascii_case_collides_witness :
  sanitize_table_name ucd_excerpt (lit "totals") = sanitize_table_name ucd_excerpt (lit "Totals").
Proof.
  apply (sanitize_ascii_case_collides ucd_excerpt (lit "Totals")). reflexivity.
Defined.

(** X5: a name none of whose characters is alphanumeric, an underscore, a
    space, a hyphen or a period gives the empty string. *)
Theorem sanitize_all_dropped U name :
  forallb (fun c => negb (py_isalnum U c || (c =? UNDERSCORE) || (c =? SPACE)
                          || (c =? HYPHEN) || (c =? PERIOD))) name = true ->
  sanitize_table_name U name = [].
Proof.
  intros Hname. rewrite sanitize_unfold, replaced_map.
  replace (List.filter _ _) with (@nil N); [reflexivity|].
  induction name as [|c name IH]; [reflexivity|]. cbn [forallb List.map List.filter] in *.
  apply andb_true_iff in Hname as [Hc Hname]. rewrite <- IH by assumption.
  destruct (py_isalnum U c) eqn:Halnum; [discriminate|].
  destruct (N.eqb_spec c UNDERSCORE) as [->|Hus]; [discriminate|].
  destruct (c =? SPACE), (c =? HYPHEN), (c =? PERIOD); try discriminate.
  cbn [orb]. rewrite Halnum. destruct (N.eqb_spec c UNDERSCORE); [contradiction|reflexivity].
Qed.

Lemma sanitize_all_dropped_witness : sanitize_table_name ucd_excerpt (lit "#!?") = [].
Proof. apply (sanitize_all_dropped ucd_excerpt (lit "#!?")). reflexivity. Defined.

(** ** The derived prefix *)

Section PrefixMore.
Context (U : unicode_tables).

Lemma match_timestamp_underscore c s :
  match_timestamp U (c :: s) = true -> c = UNDERSCORE.
Proof.
  cbn [match_timestamp]. intros H. apply andb_true_iff in H as [H _].
  now apply N.eqb_eq in H.
Qed.

(** The substitution passes over what holds no underscore. *)
Lemma re_sub_timestamp_app base s :
  ~ In UNDERSCORE base ->
  re_sub_timestamp U (base ++ s) = base ++ re_sub_timestamp U s.
Proof.
  induction base as [|c base IH]; [reflexivity|]. cbn [In app]. intros Hnot.
  rewrite re_sub_timestamp_keep.
  - rewrite IH by tauto. reflexivity.
  - destruct (match_timestamp U (c :: base ++ s)) eqn:Hm; [|reflexivity].
    apply match_timestamp_underscore in Hm. exfalso. apply Hnot. now left.
Qed.

Lemma re_sub_timestamp_shape ts s :
  timestamp_shape U ts -> re_sub_timestamp U (ts ++ s) = re_sub_timestamp U s.
Proof.
  intros Hts. pose proof (timestamp_shape_length U ts Hts) as Hlen.
  assert (Hm : match_timestamp U (ts ++ s) = true).
  { apply match_timestamp_spec. now exists ts, s. }
  destruct ts as [|c ts]; [discriminate|]. cbn [app] in *.
  rewrite re_sub_timestamp_match by assumption.
  rewrite drop_app_length'; [reflexivity|]. cbn [length] in Hlen. lia.
Qed.

(** Where no timestamp starts, the substitution changes nothing. *)
Lemma re_sub_timestamp_no_match s :
  (forall i, match_timestamp U (drop i s) = false) -> re_sub_timestamp U s = s.
Proof.
  induction s as [|c s IH]; intros Hno; [now simp re_sub_timestamp|].
  rewrite re_sub_timestamp_keep by exact (Hno 0%nat).
  f_equal. apply IH. intros i. exact (Hno (S i)).
Qed.

Lemma replaced_no_separator s :
  ~ In SPACE (replace HYPHEN UNDERSCORE (replace SPACE UNDERSCORE s)) /\
  ~ In HYPHEN (replace HYPHEN UNDERSCORE (replace SPACE UNDERSCORE s)).
Proof.
  unfold replace. rewrite List.map_map. split; intros Hin.
  all: apply List.in_map_iff in Hin as (c & Hc & _); revert Hc; unfold_chars; nbool.
Qed.

End PrefixMore.

(** X6: the prefix derived from a file name holds no space and no hyphen. *)
Theorem derive_prefix_no_space_no_hyphen U name :
  ~ In SPACE (derive_prefix U name) /\ ~ In HYPHEN (derive_prefix U name).
Proof. unfold derive_prefix. apply replaced_no_separator. Qed.

(** X7: apart from timestamps, spaces and hyphens the prefix keeps the stem
    as it is: where no timestamp starts in the stem, the prefix is the stem
    with each space and each hyphen replaced by an underscore; uppercase
    letters, periods and every other character stay. *)
Theorem derive_prefix_without_timestamp U name :
  (forall i, match_timestamp U (drop i (stem name)) = false) ->
  derive_prefix U name
  = List.map (fun c => if (c =? SPACE) || (c =? HYPHEN) then UNDERSCORE else c) (stem name).
Proof.
  intros Hno. unfold derive_prefix, replace. rewrite re_sub_timestamp_no_match by assumption.
  rewrite List.map_map. apply List.map_ext. intros c. unfold_chars. nbool.
Qed.

Lemma derive_prefix_without_timestamp_witness :
  derive_prefix ucd_excerpt (lit "Sales.2024 Q1-v2_final.xlsx") = lit "Sales.2024_Q1_v2_final".
Proof.
  apply (derive_prefix_without_timestamp ucd_excerpt (lit "Sales.2024 Q1-v2_final.xlsx")).
  intros i. do 23 (destruct i as [|i]; [reflexivity|]). reflexivity.
Defined.

(** X8: a timestamp between a part without underscore and the extension is
    deleted whole: the prefix of [<base><timestamp>.<ext>] is [base] with its
    spaces and hyphens replaced; a file named by a timestamp only has the
    empty prefix. *)
Theorem derive_prefix_trailing_timestamp U base ts ext :
  ~ In UNDERSCORE base ->
  timestamp_shape U ts ->
  ext <> [] -> ~ In PERIOD ext ->
  derive_prefix U (base ++ ts ++ PERIOD :: ext)
  = List.map (fun c => if (c =? SPACE) || (c =? HYPHEN) then UNDERSCORE else c) base.
Proof.
  intros Hbase Hts Hext Hnot. unfold derive_prefix, replace.
  pose proof (timestamp_shape_length U ts Hts) as Hlen.
  rewrite app_assoc, stem_extension by (try assumption; destruct base, ts; discriminate).
  rewrite re_sub_timestamp_app by assumption.
  rewrite <- (app_nil_r ts), re_sub_timestamp_shape by assumption.
  simp re_sub_timestamp. rewrite app_nil_r, List.map_map.
  apply List.map_ext. intros c. unfold_chars. nbool.
Qed.

Lemma derive_prefix_trailing_timestamp_witness :
  derive_prefix ucd_excerpt (lit "Q3 report-EU_20250919_085132.xlsx") = lit "Q3_report_EU" /\
  derive_prefix ucd_excerpt (lit "_20250919_085132.xlsx") = [].
Proof.
  assert (Hts : timestamp_shape ucd_excerpt (lit "_20250919_085132")).
  { exists (lit "20250919"), (lit "085132"). repeat split.
    repeat (constructor; [reflexivity|]). constructor. }
  split.
  - apply (derive_prefix_trailing_timestamp ucd_excerpt (lit "Q3 report-EU")
             (lit "_20250919_085132") (lit "xlsx")).
    + vm_compute. intuition discriminate.
    + exact Hts.
    + discriminate.
    + vm_compute. intuition discriminate.
  - apply (derive_prefix_trailing_timestamp ucd_excerpt [] (lit "_20250919_085132")
             (lit "xlsx")).
    + intros [].
    + exact Hts.
    + discriminate.
    + vm_compute. intuition discriminate.
Defined.

(** ** The Sheet Loader, further *)

Lemma sheets_read_app evs1 evs2 :
  sheets_read (evs1 ++ evs2) = sheets_read evs1 ++ sheets_read evs2.
Proof. apply flat_map_app. Qed.

Section LoaderMore.
Context (U : unicode_tables) (w : world).
Context (xlsx_file duckdb_file table_prefix : str) (skip_errors verbose : bool).

Local Abbreviation body := (process_sheet U w xlsx_file table_prefix skip_errors verbose).
Local Abbreviation table_of := (expected_table_name U table_prefix).

(** One turn of the loop: the other tables stay as they are, the sheet is
    read once, and on return the sheet is in one of the two lists. *)
Lemma process_sheet_turn sheet_name loaded0 skipped0 st st' r :
  body sheet_name (loaded0, skipped0) st = (st', r) ->
  (forall t, t <> table_key w (table_of sheet_name) -> db st' !! t = db st !! t) /\
  (exists evs, trace st' = trace st ++ evs /\ sheets_read evs = [sheet_name]) /\
  match r with
  | inr (loaded, skipped) =>
      (length loaded + length skipped = S (length loaded0 + length skipped0))%nat
  | inl _ => True
  end.
Proof.
  rewrite process_sheet_spec. unfold sheet_outcome_in, reading_events.
  destruct (read_excel w xlsx_file sheet_name) as [msg|df];
    [|destruct (df_empty df);
      [|destruct (execute_error w (db st) _ df) as [msg|]]];
    try destruct skip_errors; intros Heq; apply pair_equal_spec in Heq as [<- <-];
    cbn [db open_conns trace add_events].
  all: split; [intros t Ht; try reflexivity; now rewrite lookup_insert_ne|].
  all: split; [eexists; split; [reflexivity|]; now destruct verbose|].
  all: rewrite ?length_app; cbn [length]; try exact I; lia.
Qed.

Lemma sheets_loop_more names loaded0 skipped0 st st' r :
  for_each names body (loaded0, skipped0) st = (st', r) ->
  (forall t, (forall s, In s names -> t <> table_key w (table_of s)) ->
             db st' !! t = db st !! t) /\
  (exists evs, trace st' = trace st ++ evs /\
     match r with
     | inr _ => sheets_read evs = names
     | inl _ => exists pre bad post, names = pre ++ bad :: post /\
                                     sheets_read evs = pre ++ [bad]
     end) /\
  match r with
  | inr (loaded, skipped) =>
      (length loaded + length skipped
       = length loaded0 + length skipped0 + length names)%nat
  | inl _ => True
  end.
Proof.
  revert loaded0 skipped0 st.
  induction names as [|n names IH]; intros loaded0 skipped0 st; cbn [for_each].
  - intros Heq. apply pair_equal_spec in Heq as [<- <-].
    split; [reflexivity|]. split; [|cbn [length]; lia].
    exists []. now rewrite app_nil_r.
  - run_steps.
    destruct (body n (loaded0, skipped0) st) as [st1 [e|[l1 s1]]] eqn:Hstep;
      apply process_sheet_turn in Hstep as (Hdb1 & (evs1 & Htr1 & Hrd1) & Hlen1).
    + intros Heq. apply pair_equal_spec in Heq as [<- <-].
      split; [intros t Ht; apply Hdb1, Ht; now left|]. split; [|exact I].
      exists evs1. split; [assumption|]. exists [], n, names. now split.
    + intros Hrest. apply IH in Hrest as (Hdb2 & (evs2 & Htr2 & Hrd2) & Hlen2).
      split.
      { intros t Ht. rewrite Hdb2 by (intros s Hs; apply Ht; now right).
        apply Hdb1, Ht. now left. }
      split.
      { exists (evs1 ++ evs2). split; [rewrite Htr2, Htr1; now rewrite app_assoc|].
        rewrite sheets_read_app, Hrd1. destruct r as [e|acc].
        - destruct Hrd2 as (pre & bad & post & -> & ->).
          exists (n :: pre), bad, post. now split.
        - now rewrite Hrd2. }
      destruct r as [e|[loaded skipped]]; [exact I|]. cbn [length]. lia.
Qed.

(** Every run of the Sheet Loader, by how far it gets. *)
Lemma load_xlsx_inv st st' r :
  load_xlsx U w xlsx_file duckdb_file table_prefix skip_errors verbose st = (st', r) ->
  (forall t, is_Some (db st !! t) -> is_Some (db st' !! t)) /\
  (forall t,
     (forall names s, sheet_names_of w xlsx_file = inr names -> In s names ->
                      t <> table_key w (table_of s)) ->
     db st' !! t = db st !! t) /\
  (r = inr tt \/ skip_errors = true -> open_conns st' = open_conns st) /\
  (open_conns st <= open_conns st' <= S (open_conns st))%nat /\
  (forall e, r = inl e ->
     (mkdir_error w duckdb_file = None -> e = TyperExit 1) /\
     (skip_errors = true ->
      db st' = db st /\
      (path_exists w xlsx_file = false \/
      (exists msg, mkdir_error w duckdb_file = Some msg /\ e = PyError msg) \/
      (exists msg, sheet_names_of w xlsx_file = inl msg) \/
      (exists msg, connect_error w duckdb_file = Some msg)))).
Proof.
  destruct (path_exists w xlsx_file) eqn:Hexists.
  2: { rewrite load_xlsx_not_found by assumption.
       intros Heq. apply pair_equal_spec in Heq as [<- <-]. cbn [db open_conns add_events].
       split; [auto|]. split; [auto|]. split; [auto|]. split; [lia|].
       intros e0 [= <-]. split; [reflexivity|]. intros _. split; [reflexivity|]. now left. }
  destruct (mkdir_error w duckdb_file) as [msg|] eqn:Hmkdir.
  { rewrite (load_xlsx_mkdir_fails U w _ _ _ _ _ msg) by assumption.
    intros Heq. apply pair_equal_spec in Heq as [<- <-]. cbn [db open_conns add_events].
    split; [auto|]. split; [auto|]. split; [auto|]. split; [lia|].
    intros e0 [= <-]. split; [discriminate|]. intros _. split; [reflexivity|].
    right. left. now exists msg. }
  destruct (sheet_names_of w xlsx_file) as [msg|names] eqn:Hnames.
  { rewrite (load_xlsx_workbook_fails U w _ _ _ _ _ msg) by assumption.
    intros Heq. apply pair_equal_spec in Heq as [<- <-]. cbn [db open_conns add_events].
    split; [auto|]. split; [auto|]. split; [auto|]. split; [lia|].
    intros e0 [= <-]. split; [reflexivity|]. intros _. split; [reflexivity|].
    right. right. left. now exists msg. }
  destruct (connect_error w duckdb_file) as [msg|] eqn:Hconnect.
  { rewrite (load_xlsx_connect_fails U w _ _ _ _ _ names msg) by assumption.
    intros Heq. apply pair_equal_spec in Heq as [<- <-]. cbn [db open_conns add_events].
    split; [auto|]. split; [auto|]. split; [auto|]. split; [lia|].
    intros e0 [= <-]. split; [reflexivity|]. intros _. split; [reflexivity|].
    right. right. right. now exists msg. }
  rewrite (load_xlsx_run U w _ _ _ _ _ names st) by assumption.
  destruct (for_each names _ _ _) as [st1 [e|[loaded skipped]]] eqn:Hloop;
    pose proof Hloop as Hmore;
    apply sheets_loop_inv in Hloop as (Hconn & _ & Hmono & _ & Hres);
    apply sheets_loop_more in Hmore as (Hdb & _ & _);
    intros Heq; apply pair_equal_spec in Heq as [<- <-];
    cbn [db open_conns trace add_events loop_start] in *.
  - destruct Hres as (-> & Hskip).
    split; [assumption|]. split; [intros t Ht; apply Hdb; intros s Hs; now apply (Ht names)|].
    split; [intros [|]; congruence|]. split; [lia|].
    intros e0 [= <-]. split; [reflexivity|congruence].
  - split; [assumption|]. split; [intros t Ht; apply Hdb; intros s Hs; now apply (Ht names)|].
    split; [intros _; rewrite Hconn; reflexivity|]. split; [lia|]. discriminate.
Qed.

End LoaderMore.

(** X9: a workbook that does not exist ends the command with exit code 1
    after one line on the error stream: the directory of the database is not
    created, no connection is opened and the database stays as it is. *)
Theorem load_xlsx_missing_workbook U w xlsx_file duckdb_file table_prefix skip_errors verbose
    st :
  path_exists w xlsx_file = false ->
  exists st',
    load_xlsx U w xlsx_file duckdb_file table_prefix skip_errors verbose st
    = (st', inl (TyperExit 1)) /\
    exit_code (snd (load_xlsx U w xlsx_file duckdb_file table_prefix skip_errors verbose st))
    = 1%Z /\
    trace st' = trace st ++ [EvEcho true (MsgNotFound xlsx_file)] /\
    db st' = db st /\ open_conns st' = open_conns st.
Proof.
  intros Hexists. rewrite load_xlsx_not_found by assumption.
  eexists. split; [reflexivity|]. now repeat split.
Qed.

Lemma load_xlsx_missing_workbook_witness :
  snd (load_xlsx ucd_excerpt absent_world (lit "book.xlsx") (lit "out/db.duckdb") [] true true
         initial_state)
  = inl (TyperExit 1).
Proof.
  destruct (load_xlsx_missing_workbook ucd_excerpt absent_world (lit "book.xlsx")
              (lit "out/db.duckdb") [] true true initial_state eq_refl)
    as (st' & Hrun & _).
  now rewrite Hrun.
Defined.

(** X10: the directory of the database is created outside the handler of the
    run: when that fails the error leaves [load_xlsx] as it is, not as an
    exit, nothing is printed, and the workbook is not opened. *)
Theorem load_xlsx_mkdir_error_escapes U w xlsx_file duckdb_file table_prefix skip_errors
    verbose msg st :
  path_exists w xlsx_file = true ->
  mkdir_error w duckdb_file = Some msg ->
  exists st',
    load_xlsx U w xlsx_file duckdb_file table_prefix skip_errors verbose st
    = (st', inl (PyError msg)) /\
    trace st' = trace st ++ [EvMkdir duckdb_file] /\
    db st' = db st /\ open_conns st' = open_conns st.
Proof.
  intros Hexists Hmkdir. rewrite (load_xlsx_mkdir_fails U w _ _ _ _ _ msg) by assumption.
  eexists. split; [reflexivity|]. now repeat split.
Qed.

Lemma load_xlsx_mkdir_error_escapes_witness :
  snd (load_xlsx ucd_excerpt readonly_world (lit "book.xlsx") (lit "out/db.duckdb") [] true
         true initial_state)
  = inl (PyError (lit "permission denied")).
Proof.
  destruct (load_xlsx_mkdir_error_escapes ucd_excerpt readonly_world (lit "book.xlsx")
              (lit "out/db.duckdb") [] true true (lit "permission denied") initial_state
              eq_refl eq_refl)
    as (st' & Hrun & _).
  now rewrite Hrun.
Defined.

(** A run that returns: the workbook and the connection opened, the loop
    over the sheets returned, and the close and the summary followed. *)
Lemma load_xlsx_returned U w xlsx_file duckdb_file table_prefix skip_errors verbose st st' :
  load_xlsx U w xlsx_file duckdb_file table_prefix skip_errors verbose st = (st', inr tt) ->
  exists names st1 loaded skipped,
    path_exists w xlsx_file = true /\
    mkdir_error w duckdb_file = None /\
    sheet_names_of w xlsx_file = inr names /\
    connect_error w duckdb_file = None /\
    for_each names (process_sheet U w xlsx_file table_prefix skip_errors verbose) ([], [])
      (loop_start xlsx_file duckdb_file verbose names st)
    = (st1, inr (loaded, skipped)) /\
    st' = {| db := db st1; open_conns := pred (open_conns st1);
             trace := trace st1
                      ++ [EvClose;
                          EvEcho false
                            (MsgSummary xlsx_file duckdb_file loaded skipped)] |}.
Proof.
  destruct (path_exists w xlsx_file) eqn:Hexists;
    [|now rewrite load_xlsx_not_found].
  destruct (mkdir_error w duckdb_file) as [msg|] eqn:Hmkdir;
    [now rewrite (load_xlsx_mkdir_fails U w _ _ _ _ _ msg)|].
  destruct (sheet_names_of w xlsx_file) as [msg|names] eqn:Hnames;
    [now rewrite (load_xlsx_workbook_fails U w _ _ _ _ _ msg)|].
  destruct (connect_error w duckdb_file) as [msg|] eqn:Hconnect;
    [now rewrite (load_xlsx_connect_fails U w _ _ _ _ _ names msg)|].
  rewrite (load_xlsx_run U w _ _ _ _ _ names st) by assumption.
  destruct (for_each names _ _ _) as [st1 [e|[loaded skipped]]] eqn:Hloop; [discriminate|].
  intros Heq. apply pair_equal_spec in Heq as [<- _].
  now exists names, st1, loaded, skipped.
Qed.

Lemma opening_events_no_close xlsx_file duckdb_file verbose names :
  ~ In EvClose (opening_events xlsx_file duckdb_file verbose names).
Proof. unfold opening_events. destruct verbose; cbn; intuition discriminate. Qed.

Lemma opening_events_no_read xlsx_file duckdb_file verbose names :
  sheets_read (opening_events xlsx_file duckdb_file verbose names) = [].
Proof. unfold opening_events. now destruct verbose. Qed.

(** X11: a run that returns has closed the connection it opened: as many
    connections are open as before, and the close is the one event between
    the events of the loop and the summary. *)
Theorem load_xlsx_return_closes U w xlsx_file duckdb_file table_prefix skip_errors verbose
    st st' :
  load_xlsx U w xlsx_file duckdb_file table_prefix skip_errors verbose st = (st', inr tt) ->
  open_conns st' = open_conns st /\
  exists evs loaded skipped,
    trace st' = trace st ++ evs
                ++ [EvClose; EvEcho false (MsgSummary xlsx_file duckdb_file loaded skipped)] /\
    In (EvConnect duckdb_file) evs /\
    ~ In EvClose evs.
Proof.
  intros Hrun. apply load_xlsx_returned in Hrun
    as (names & st1 & loaded & skipped & _ & _ & _ & _ & Hloop & ->).
  apply sheets_loop_inv in Hloop as (Hconn & (evs & Htr & Hevs) & _).
  cbn [open_conns trace loop_start] in *. split; [now rewrite Hconn|].
  exists (opening_events xlsx_file duckdb_file verbose names ++ evs), loaded, skipped.
  split; [rewrite Htr; now rewrite <- !app_assoc|]. split.
  - apply in_or_app. left. unfold opening_events. rewrite !in_app_iff. cbn. tauto.
  - intros Hin. apply in_app_or in Hin as [Hin|Hin].
    + now apply opening_events_no_close in Hin.
    + rewrite List.Forall_forall in Hevs. exact (Hevs _ Hin).
Qed.

Lemma load_xlsx_return_closes_witness :
  open_conns (fst (load_xlsx ucd_excerpt corrupt_world (lit "book.xlsx") (lit "out.duckdb") []
                     true false initial_state))
  = 0%nat.
Proof.
  apply (load_xlsx_return_closes ucd_excerpt corrupt_world (lit "book.xlsx")
           (lit "out.duckdb") [] true false initial_state).
  reflexivity.
Defined.

(** X12: a run that returns has read every sheet of the workbook once, in
    the order of the workbook. *)
Theorem load_xlsx_reads_each_sheet_once U w xlsx_file duckdb_file table_prefix skip_errors
    verbose names st st' :
  sheet_names_of w xlsx_file = inr names ->
  load_xlsx U w xlsx_file duckdb_file table_prefix skip_errors verbose st = (st', inr tt) ->
  exists evs, trace st' = trace st ++ evs /\ sheets_read evs = names.
Proof.
  intros Hnames Hrun. apply load_xlsx_returned in Hrun
    as (names' & st1 & loaded & skipped & _ & _ & Hnames' & _ & Hloop & ->).
  assert (names' = names) as -> by congruence.
  apply sheets_loop_more in Hloop as (_ & (evs & Htr & Hread) & _).
  cbn [trace loop_start] in *. eexists. split.
  - rewrite Htr, <- !app_assoc. reflexivity.
  - rewrite !sheets_read_app, opening_events_no_read, Hread. cbn. now rewrite app_nil_r.
Qed.

Lemma load_xlsx_reads_each_sheet_once_witness :
  exists evs,
    trace (fst (load_xlsx ucd_excerpt corrupt_world (lit "book.xlsx") (lit "out.duckdb") []
                  true true initial_state))
    = trace initial_state ++ evs /\
    sheets_read evs = [lit "Data 1"; lit "Broken"; lit "Notes-2024"].
Proof.
  apply (load_xlsx_reads_each_sheet_once ucd_excerpt corrupt_world (lit "book.xlsx")
           (lit "out.duckdb") [] true true).
  - reflexivity.
  - reflexivity.
Defined.

(** X13: in the summary of a run that returns every sheet of the workbook is
    counted once, as loaded or as skipped. *)
Theorem load_xlsx_summary_counts U w xlsx_file duckdb_file table_prefix skip_errors verbose
    names st st' :
  sheet_names_of w xlsx_file = inr names ->
  load_xlsx U w xlsx_file duckdb_file table_prefix skip_errors verbose st = (st', inr tt) ->
  exists evs loaded skipped,
    trace st' = trace st ++ evs
                ++ [EvEcho false (MsgSummary xlsx_file duckdb_file loaded skipped)] /\
    (length loaded + length skipped = length names)%nat.
Proof.
  intros Hnames Hrun. apply load_xlsx_returned in Hrun
    as (names' & st1 & loaded & skipped & _ & _ & Hnames' & _ & Hloop & ->).
  assert (names' = names) as -> by congruence.
  apply sheets_loop_more in Hloop as (_ & (evs & Htr & _) & Hlen).
  cbn [trace loop_start length] in *.
  exists (opening_events xlsx_file duckdb_file verbose names ++ evs ++ [EvClose]),
    loaded, skipped.
  split; [rewrite Htr, <- !app_assoc; reflexivity|lia].
Qed.

Lemma load_xlsx_summary_counts_witness :
  exists evs loaded skipped,
    trace (fst (load_xlsx ucd_excerpt quarter_world (lit "book.xlsx") (lit "out.duckdb") []
                  false false initial_state))
    = trace initial_state ++ evs
      ++ [EvEcho false (MsgSummary (lit "book.xlsx") (lit "out.duckdb") loaded skipped)] /\
    (length loaded + length skipped = 3)%nat.
Proof.
  apply (load_xlsx_summary_counts ucd_excerpt quarter_world (lit "book.xlsx")
           (lit "out.duckdb") [] false false
           [lit "Data 1"; lit "Empty"; lit "Notes-2024"]).
  - reflexivity.
  - reflexivity.
Defined.







(** ** The Directory Batcher, further *)

Lemma files_announced_app evs1 evs2 :
  files_announced (evs1 ++ evs2) = files_announced evs1 ++ files_announced evs2.
Proof. apply flat_map_app. Qed.

Lemma loop_events_announce_nothing U table_prefix names evs :
  Forall (loop_event U table_prefix names) evs -> files_announced evs = [].
Proof.
  induction 1 as [|ev evs Hev _ IH]; [reflexivity|].
  change (ev :: evs) with ([ev] ++ evs). rewrite files_announced_app, IH, app_nil_r. destruct ev as [| | | | | |err m]; try reflexivity.
  destruct m; try reflexivity. destruct Hev.
Qed.

(** The Sheet Loader announces no file. *)
Lemma load_xlsx_announces_nothing U w xlsx_file duckdb_file table_prefix skip_errors verbose
    st st' r :
  load_xlsx U w xlsx_file duckdb_file table_prefix skip_errors verbose st = (st', r) ->
  exists evs, trace st' = trace st ++ evs /\ files_announced evs = [].
Proof.
  destruct (path_exists w xlsx_file) eqn:Hexists.
  2: { rewrite load_xlsx_not_found by assumption.
       intros Heq. apply pair_equal_spec in Heq as [<- _]. now eexists. }
  destruct (mkdir_error w duckdb_file) as [msg|] eqn:Hmkdir.
  { rewrite (load_xlsx_mkdir_fails U w _ _ _ _ _ msg) by assumption.
    intros Heq. apply pair_equal_spec in Heq as [<- _]. now eexists. }
  destruct (sheet_names_of w xlsx_file) as [msg|names] eqn:Hnames.
  { rewrite (load_xlsx_workbook_fails U w _ _ _ _ _ msg) by assumption.
    intros Heq. apply pair_equal_spec in Heq as [<- _].
    eexists. split; [reflexivity|]. now destruct verbose. }
  destruct (connect_error w duckdb_file) as [msg|] eqn:Hconnect.
  { rewrite (load_xlsx_connect_fails U w _ _ _ _ _ names msg) by assumption.
    intros Heq. apply pair_equal_spec in Heq as [<- _].
    eexists. split; [reflexivity|]. now destruct verbose. }
  rewrite (load_xlsx_run U w _ _ _ _ _ names st) by assumption.
  destruct (for_each names _ _ _) as [st1 [e|[loaded skipped]]] eqn:Hloop;
    apply sheets_loop_inv in Hloop as (_ & (evs & Htr & Hevs) & _);
    apply loop_events_announce_nothing in Hevs;
    intros Heq; apply pair_equal_spec in Heq as [<- _];
    cbn [trace add_events loop_start] in *; rewrite Htr, <- !app_assoc;
    (eexists; split; [reflexivity|]);
    rewrite !files_announced_app, Hevs; unfold opening_events; now destruct verbose.
Qed.

Section BatchMore.
Context (U : unicode_tables) (w : world).
Context (duckdb_file : str) (skip_errors verbose : bool).

(** The loop body for one file, by how the Sheet Loader ends. *)
Lemma process_file_run xlsx_file st :
  process_file U w duckdb_file skip_errors verbose xlsx_file tt st =
  match load_xlsx U w (path_str xlsx_file) duckdb_file
          (derive_prefix U (path_name xlsx_file)) skip_errors verbose
          (add_events [EvEcho false (MsgProcessingFile (path_name xlsx_file))] st) with
  | (st1, inr _) => (st1, inr tt)
  | (st1, inl e) =>
      if skip_errors
      then (add_events [EvEcho false (MsgSkippedFile (path_name xlsx_file) (str_exn e))] st1,
            inr tt)
      else (st1, inl e)
  end.
Proof.
  unfold process_file. run_steps.
  destruct (load_xlsx U w _ _ _ _ _ _) as [st1 [e|[]]]; [|reflexivity].
  now destruct skip_errors.
Qed.

Lemma process_file_inv xlsx_file st st' r :
  process_file U w duckdb_file skip_errors verbose xlsx_file tt st = (st', r) ->
  (forall t, is_Some (db st !! t) -> is_Some (db st' !! t)) /\
  (r = inr tt \/ skip_errors = true -> open_conns st' = open_conns st) /\
  (skip_errors = true -> r = inr tt) /\
  (exists evs, trace st' = trace st ++ evs /\
               files_announced evs = [path_name xlsx_file]).
Proof.
  rewrite process_file_run.
  destruct (load_xlsx U w _ _ _ _ _ _) as [st1 [e|[]]] eqn:Hrun;
    pose proof (load_xlsx_announces_nothing _ _ _ _ _ _ _ _ _ _ Hrun) as (evs & Htr & Hann);
    apply load_xlsx_inv in Hrun as (Hsome & _ & Hconn & _ & _);
    cbn [db open_conns trace add_events] in *.
  - destruct skip_errors; intros Heq; apply pair_equal_spec in Heq as [<- <-];
      cbn [db open_conns trace add_events].
    + split; [assumption|]. split; [intros _; apply Hconn; now right|].
      split; [reflexivity|]. rewrite Htr, <- !app_assoc.
      eexists. split; [reflexivity|]. rewrite !files_announced_app, Hann. reflexivity.
    + split; [assumption|]. split; [intros [|]; discriminate|].
      split; [discriminate|]. rewrite Htr, <- !app_assoc.
      eexists. split; [reflexivity|]. rewrite !files_announced_app, Hann. reflexivity.
  - intros Heq; apply pair_equal_spec in Heq as [<- <-].
    split; [assumption|]. split; [intros _; apply Hconn; now left|].
    split; [reflexivity|]. rewrite Htr, <- !app_assoc.
    eexists. split; [reflexivity|]. rewrite !files_announced_app, Hann. reflexivity.
Qed.

Lemma files_loop_inv files st st' r :
  for_each files (process_file U w duckdb_file skip_errors verbose) tt st = (st', r) ->
  (forall t, is_Some (db st !! t) -> is_Some (db st' !! t)) /\
  (r = inr tt \/ skip_errors = true -> open_conns st' = open_conns st) /\
  (skip_errors = true -> r = inr tt) /\
  (exists evs, trace st' = trace st ++ evs /\
     match r with
     | inr _ => files_announced evs = List.map path_name files
     | inl _ => exists pre f post,
                  files = pre ++ f :: post /\
                  files_announced evs = List.map path_name (pre ++ [f])
     end).
Proof.
  revert st. induction files as [|f files IH]; intros st; cbn [for_each].
  - intros Heq. apply pair_equal_spec in Heq as [<- <-].
    split; [auto|]. split; [auto|]. split; [auto|].
    exists []. now rewrite app_nil_r.
  - run_steps.
    destruct (process_file U w _ _ _ f tt st) as [st1 [e|[]]] eqn:Hfile;
      apply process_file_inv in Hfile as (Hsome1 & Hconn1 & Hret1 & (evs1 & Htr1 & Hann1)).
    + intros Heq. apply pair_equal_spec in Heq as [<- <-].
      split; [assumption|]. split; [assumption|]. split; [assumption|].
      exists evs1. split; [assumption|]. exists [], f, files. now split.
    + intros Hrest. apply IH in Hrest as (Hsome2 & Hconn2 & Hret2 & (evs2 & Htr2 & Hann2)).
      split; [auto|]. split; [|split; [assumption|]].
      { intros Hr. rewrite (Hconn2 Hr). apply Hconn1. now left. }
      exists (evs1 ++ evs2). split; [rewrite Htr2, Htr1; now rewrite app_assoc|].
      rewrite files_announced_app, Hann1. destruct r as [e|[]].
      * destruct Hann2 as (pre & f' & post & -> & ->).
        exists (f :: pre), f', post. now split.
      * now rewrite Hann2.
Qed.

End BatchMore.

(** X17: an input directory that does not exist ends the batch with exit
    code 1 after one line on the error stream, also with the skip-errors flag
    on: no file is looked for and the database is not touched. *)
Theorem load_all_xlsx_missing_directory U w input_dir duckdb_file file_pattern skip_errors
    verbose st :
  path_exists w input_dir = false ->
  load_all_xlsx U w input_dir duckdb_file file_pattern skip_errors verbose st
  = (add_events [EvEcho true (MsgDirNotFound input_dir)] st, inl (TyperExit 1)) /\
  exit_code
    (snd (load_all_xlsx U w input_dir duckdb_file file_pattern skip_errors verbose st))
  = 1%Z.
Proof.
  intros Hexists. unfold load_all_xlsx. rewrite Hexists. now split.
Qed.

Lemma load_all_xlsx_missing_directory_witness :
  exit_code
    (snd (load_all_xlsx ucd_excerpt absent_world (lit "in") (lit "out.duckdb") (lit "*.xlsx")
            true false initial_state))
  = 1%Z.
Proof.
  apply (load_all_xlsx_missing_directory ucd_excerpt absent_world (lit "in")
           (lit "out.duckdb") (lit "*.xlsx") true false initial_state).
  reflexivity.
Defined.

(** X18: a directory in which no file matches the pattern is no error: the
    batch prints one line on the output stream and returns, with exit code 0,
    the database not touched and no connection opened. *)
Theorem load_all_xlsx_no_files U w input_dir duckdb_file file_pattern skip_errors verbose st :
  path_exists w input_dir = true ->
  glob w input_dir file_pattern = inr [] ->
  load_all_xlsx U w input_dir duckdb_file file_pattern skip_errors verbose st
  = (add_events [EvEcho false (MsgNoFiles file_pattern input_dir)] st, inr tt) /\
  exit_code
    (snd (load_all_xlsx U w input_dir duckdb_file file_pattern skip_errors verbose st))
  = 0%Z.
Proof.
  intros Hexists Hglob. unfold load_all_xlsx. rewrite Hexists, Hglob. now split.
Qed.

Lemma load_all_xlsx_no_files_witness :
  exit_code
    (snd (load_all_xlsx ucd_excerpt quarter_world (lit "in") (lit "out.duckdb") (lit "*.xlsx")
            false false initial_state))
  = 0%Z.
Proof.
  apply (load_all_xlsx_no_files ucd_excerpt quarter_world (lit "in") (lit "out.duckdb")
           (lit "*.xlsx") false false initial_state).
  - reflexivity.
  - reflexivity.
Defined.

(** X19: with the skip-errors flag on, a batch over an existing directory
    whose listing succeeds always returns, with exit code 0, whatever becomes
    of its files, and leaves no connection open; the listing is outside every
    handler: when it raises, on a pattern that [Path.glob] refuses, its error
    leaves the batch as it is, nothing is printed and the exit code is 1. *)
Theorem load_all_xlsx_skip_errors_returns U w input_dir duckdb_file file_pattern verbose st :
  path_exists w input_dir = true ->
  (forall files,
     glob w input_dir file_pattern = inr files ->
     exists st',
       load_all_xlsx U w input_dir duckdb_file file_pattern true verbose st = (st', inr tt) /\
       exit_code
         (snd (load_all_xlsx U w input_dir duckdb_file file_pattern true verbose st))
       = 0%Z /\
       open_conns st' = open_conns st) /\
  (forall msg,
     glob w input_dir file_pattern = inl msg ->
     load_all_xlsx U w input_dir duckdb_file file_pattern true verbose st
     = (st, inl (PyError msg)) /\
     exit_code (snd (load_all_xlsx U w input_dir duckdb_file file_pattern true verbose st))
     = 1%Z).
Proof.
  intros Hexists. unfold load_all_xlsx. rewrite Hexists. cbn [negb]. run_steps. split.
  - intros files ->. destruct files as [|f files].
    + eexists. now repeat split.
    + destruct (for_each (f :: files) _ tt _) as [st' r] eqn:Hloop.
      apply files_loop_inv in Hloop as (_ & Hconn & Hret & _).
      rewrite (Hret eq_refl). exists st'. split; [reflexivity|]. split; [reflexivity|].
      rewrite Hconn by now right. reflexivity.
  - intros msg ->. now split.
Qed.

Lemma load_all_xlsx_skip_errors_returns_witness :
  snd (load_all_xlsx ucd_excerpt mixed_world (lit "in") (lit "out.duckdb") (lit "*.xlsx")
         true false initial_state)
  = inr tt /\
  snd (load_all_xlsx ucd_excerpt refused_pattern_world (lit "in") (lit "out.duckdb") []
         true false initial_state)
  = inl (PyError (lit "Unacceptable pattern: ''")).
Proof.
  split.
  - destruct (load_all_xlsx_skip_errors_returns ucd_excerpt mixed_world (lit "in")
                (lit "out.duckdb") (lit "*.xlsx") false initial_state eq_refl)
      as [Hret _].
    destruct (Hret _ eq_refl) as (st' & Hrun & _). now rewrite Hrun.
  - destruct (load_all_xlsx_skip_errors_returns ucd_excerpt refused_pattern_world (lit "in")
                (lit "out.duckdb") [] false initial_state eq_refl)
      as [_ Hfail].
    destruct (Hfail _ eq_refl) as [Hrun _]. now rewrite Hrun.
Defined.

(** X20: with the skip-errors flag off, the first file whose load fails ends
    the batch with the exception of that load: the files after it are not
    announced, hence not processed. *)
Theorem load_all_xlsx_stops_at_first_failure U w input_dir duckdb_file file_pattern verbose
    pre f post st st1 st2 e :
  path_exists w input_dir = true ->
  glob w input_dir file_pattern = inr (pre ++ f :: post) ->
  for_each pre (process_file U w duckdb_file false verbose) tt
    (add_events [EvEcho false (MsgFoundFiles (length (pre ++ f :: post)))] st)
  = (st1, inr tt) ->
  load_xlsx U w (path_str f) duckdb_file (derive_prefix U (path_name f)) false verbose
    (add_events [EvEcho false (MsgProcessingFile (path_name f))] st1)
  = (st2, inl e) ->
  load_all_xlsx U w input_dir duckdb_file file_pattern false verbose st = (st2, inl e) /\
  exists evs,
    trace st2 = trace st ++ evs /\
    files_announced evs = List.map path_name pre ++ [path_name f].
Proof.
  intros Hexists Hglob Hpre Hload. split.
  - unfold load_all_xlsx. rewrite Hexists, Hglob. cbn [negb]. run_steps.
    destruct (pre ++ f :: post) as [|f0 files] eqn:Hfiles; [now destruct pre|].
    rewrite <- Hfiles in Hpre |- *. run_steps. rewrite for_each_app, Hpre.
    cbn [for_each]. run_steps. rewrite process_file_run, Hload. reflexivity.
  - apply files_loop_inv in Hpre as (_ & _ & _ & (evs1 & Htr1 & Hann1)).
    apply load_xlsx_announces_nothing in Hload as (evs2 & Htr2 & Hann2).
    cbn [trace add_events] in *. rewrite Htr2, Htr1, <- !app_assoc.
    eexists. split; [reflexivity|].
    rewrite !files_announced_app, Hann1, Hann2. reflexivity.
Qed.

Lemma load_all_xlsx_stops_at_first_failure_witness :
  snd (load_all_xlsx ucd_excerpt mixed_world (lit "in") (lit "out.duckdb") (lit "*.xlsx")
         false false initial_state)
  = inl (TyperExit 1).
Proof.
  destruct (load_all_xlsx_stops_at_first_failure ucd_excerpt mixed_world (lit "in")
              (lit "out.duckdb") (lit "*.xlsx") false []
              {| path_str := lit "in/broken.xlsx"; path_name := lit "broken.xlsx" |}
              [ {| path_str := lit "in/sales.xlsx"; path_name := lit "sales.xlsx" |} ]
              initial_state _ _ (TyperExit 1) eq_refl eq_refl eq_refl eq_refl)
    as [Hrun _].
  now rewrite Hrun.
Defined.





(** X23: a batch that returns has announced every file that matches the
    pattern once, in the order in which the directory listing gives them, and
    leaves no connection open. *)
Theorem load_all_xlsx_processes_each_file_once U w input_dir duckdb_file file_pattern
    skip_errors verbose st st' :
  load_all_xlsx U w input_dir duckdb_file file_pattern skip_errors verbose st
  = (st', inr tt) ->
  open_conns st' = open_conns st /\
  exists files evs,
    glob w input_dir file_pattern = inr files /\
    trace st' = trace st ++ evs /\
    files_announced evs = List.map path_name files.
Proof.
  unfold load_all_xlsx. destruct (path_exists w input_dir); cbn [negb]; run_steps.
  - destruct (glob w input_dir file_pattern) as [msg|[|f files]]; [discriminate| |].
    + intros Heq. apply pair_equal_spec in Heq as [<- _]. split; [reflexivity|].
      exists []. now eexists.
    + intros Hloop.
      apply files_loop_inv in Hloop as (_ & Hconn & _ & (evs & Htr & Hann)).
      cbn [open_conns trace add_events] in *. split; [apply Hconn; now left|].
      rewrite Htr, <- app_assoc. exists (f :: files). eexists.
      split; [reflexivity|]. split; [reflexivity|].
      rewrite files_announced_app, Hann. reflexivity.
  - discriminate.
Qed.

Lemma load_all_xlsx_processes_each_file_once_witness :
  exists evs,
    trace (fst (load_all_xlsx ucd_excerpt mixed_world (lit "in") (lit "out.duckdb")
                  (lit "*.xlsx") true false initial_state))
    = trace initial_state ++ evs /\
    files_announced evs = [lit "broken.xlsx"; lit "sales.xlsx"].
Proof.
  destruct (load_all_xlsx_processes_each_file_once ucd_excerpt mixed_world (lit "in")
              (lit "out.duckdb") (lit "*.xlsx") true false initial_state _ eq_refl)
    as (_ & files & evs & Hglob & Htrace & Hann).
  injection Hglob as <-. exists evs. split; [exact Htrace|exact Hann].
Defined.
